(** * WebUSB facade of node-usb: authorisation, filtering and event bridging

    Shallow embedding of [src/tsc/webusb/index.ts] (class [WebUSB]).

    - JavaScript numbers that carry USB identifiers are modelled as [Z];
      an optional field ([T | undefined]) is an [option].
    - The asynchronous methods are modelled as sequential state passing:
      every method takes the [WebUSB] instance state and returns the new
      state together with its completion (value returned or error thrown).
    - The backend ([usb]) is observed through a log of the calls made to it. *)

From Stdlib Require Import ZArith List String Bool Lia PeanoNat.
Import ListNotations.

Local Open Scope Z_scope.

(** ** JavaScript truthiness of optional fields *)

(** [if (x)] on a [number | undefined]: [undefined] and [0] are falsy. *)
Definition truthyNum (x : option Z) : bool :=
  match x with
  | Some v => negb (v =? 0)
  | None => false
  end.

(** [if (x)] on a [string | undefined]: [undefined] and [''] are falsy. *)
Definition truthyStr (x : option string) : bool :=
  match x with
  | Some s => negb (String.eqb s EmptyString)
  | None => false
  end.

(** [a === b] on [string | undefined]. *)
Definition strictEqStr (a b : option string) : bool :=
  match a, b with
  | Some x, Some y => String.eqb x y
  | None, None => true
  | _, _ => false
  end.

(** [a === b] where [a : number | undefined] and [b : number]. *)
Definition strictEqNum (a : option Z) (b : Z) : bool :=
  match a with
  | Some x => x =? b
  | None => false
  end.

(** ** Data model *)

(** [USBDeviceFilter]: every member is optional. *)
Module USBDeviceFilter.
Record t : Type := mk {
  vendorId : option Z;
  productId : option Z;
  classCode : option Z;
  subclassCode : option Z;
  protocolCode : option Z;
  serialNumber : option string
}.
End USBDeviceFilter.

(** [usb.Device]: the raw backend handle.  [handle] stands for the object
    identity of the JavaScript object (it is what the [Map] keys on). *)
Module Device.
Record t : Type := mk {
  handle : nat;
  idVendor : Z;
  idProduct : Z
}.

Definition eqb (a b : t) : bool :=
  Nat.eqb (handle a) (handle b)
  && (idVendor a =? idVendor b)
  && (idProduct a =? idProduct b).
End Device.

(** [USBInterface] reduced to the active alternate setting the filter reads. *)
Module USBInterface.
Record t : Type := mk {
  interfaceClass : Z;
  interfaceSubclass : Z;
  interfaceProtocol : Z
}.
End USBInterface.

(** [USBDevice] (the adapted [WebUSBDevice]).  [configuration] is
    [USBConfiguration | undefined]; a configuration is its interface list. *)
Module USBDevice.
Record t : Type := mk {
  vendorId : Z;
  productId : Z;
  deviceClass : Z;
  deviceSubclass : Z;
  deviceProtocol : Z;
  serialNumber : option string;
  configuration : option (list USBInterface.t)
}.
End USBDevice.

(** ** FilterMatcher *)

(** The callback passed to [preFilters.some] in [quickFilter]. *)
Definition quickFilterOne (device : Device.t) (filter : USBDeviceFilter.t) : bool :=
  if truthyNum (USBDeviceFilter.vendorId filter)
     && negb (strictEqNum (USBDeviceFilter.vendorId filter) (Device.idVendor device))
  then false
  else if truthyNum (USBDeviceFilter.productId filter)
          && negb (strictEqNum (USBDeviceFilter.productId filter) (Device.idProduct device))
  then false
  else true.

(** [quickFilter(devices, preFilters?)]. *)
Definition quickFilter (devices : list Device.t)
    (preFilters : option (list USBDeviceFilter.t)) : list Device.t :=
  match preFilters with
  | None => devices
  | Some [] => devices
  | Some fs => filter (fun device => existsb (quickFilterOne device) fs) devices
  end.

(** The callback passed to [interfaces.some] in [filterDevice]. *)
Definition interfaceMatches (filter : USBDeviceFilter.t) (iface : USBInterface.t) : bool :=
  if truthyNum (USBDeviceFilter.classCode filter)
     && negb (strictEqNum (USBDeviceFilter.classCode filter) (USBInterface.interfaceClass iface))
  then false
  else if truthyNum (USBDeviceFilter.subclassCode filter)
          && negb (strictEqNum (USBDeviceFilter.subclassCode filter)
                               (USBInterface.interfaceSubclass iface))
  then false
  else if truthyNum (USBDeviceFilter.protocolCode filter)
          && negb (strictEqNum (USBDeviceFilter.protocolCode filter)
                               (USBInterface.interfaceProtocol iface))
  then false
  else true.

(** The four trailing checks of the [filters.some] callback of
    [filterDevice]: device-level class, subclass, protocol, then serial. *)
Definition deviceLevelMatches (device : USBDevice.t) (filter : USBDeviceFilter.t) : bool :=
  if truthyNum (USBDeviceFilter.classCode filter)
     && negb (strictEqNum (USBDeviceFilter.classCode filter) (USBDevice.deviceClass device))
  then false
  else if truthyNum (USBDeviceFilter.subclassCode filter)
          && negb (strictEqNum (USBDeviceFilter.subclassCode filter)
                               (USBDevice.deviceSubclass device))
  then false
  else if truthyNum (USBDeviceFilter.protocolCode filter)
          && negb (strictEqNum (USBDeviceFilter.protocolCode filter)
                               (USBDevice.deviceProtocol device))
  then false
  else if truthyStr (USBDeviceFilter.serialNumber filter)
          && negb (strictEqStr (USBDeviceFilter.serialNumber filter)
                               (USBDevice.serialNumber device))
  then false
  else true.

(** The callback passed to [filters.some] in [filterDevice]. *)
Definition filterDeviceOne (device : USBDevice.t) (filter : USBDeviceFilter.t) : bool :=
  if truthyNum (USBDeviceFilter.vendorId filter)
     && negb (strictEqNum (USBDeviceFilter.vendorId filter) (USBDevice.vendorId device))
  then false
  else if truthyNum (USBDeviceFilter.productId filter)
          && negb (strictEqNum (USBDeviceFilter.productId filter) (USBDevice.productId device))
  then false
  else if truthyNum (USBDeviceFilter.classCode filter)
  then
    match USBDevice.configuration device with
    | None => false
    | Some interfaces =>
        if existsb (interfaceMatches filter) interfaces
        then true
        else deviceLevelMatches device filter
    end
  else deviceLevelMatches device filter.

(** [filterDevice(device, filters?)]. *)
Definition filterDevice (device : USBDevice.t)
    (filters : option (list USBDeviceFilter.t)) : bool :=
  match filters with
  | None => true
  | Some [] => true
  | Some fs => existsb (filterDeviceOne device) fs
  end.

(** ** Errors and completions *)

(** The two error classes the facade throws: the built-in [TypeError] and
    the local [NamedError] (message, name). *)
Inductive JsError : Type :=
| TypeError (message : string)
| NamedError (message : string) (name : string).

(** Outcome of an (awaited) method call. *)
Inductive Completion (A : Type) : Type :=
| Returned (value : A)
| Thrown (error : JsError).
Arguments Returned {A} value.
Arguments Thrown {A} error.

Definition notFoundError : JsError :=
  NamedError "Failed to execute 'requestDevice' on 'USB': No device selected."
             "NotFoundError".

(** ** [Map<usb.Device, WebUSBDevice>]

    A JavaScript [Map] keeps insertion order and [set] on a present key
    replaces the value in place, so it is an association list here. *)
Definition DeviceMap : Type := list (Device.t * USBDevice.t).

Fixpoint map_get (m : DeviceMap) (k : Device.t) : option USBDevice.t :=
  match m with
  | [] => None
  | (k', v) :: rest => if Device.eqb k' k then Some v else map_get rest k
  end.

Definition map_has (m : DeviceMap) (k : Device.t) : bool :=
  match map_get m k with
  | Some _ => true
  | None => false
  end.

Fixpoint map_set (m : DeviceMap) (k : Device.t) (v : USBDevice.t) : DeviceMap :=
  match m with
  | [] => [(k, v)]
  | (k', v') :: rest =>
      if Device.eqb k' k then (k', v) :: rest else (k', v') :: map_set rest k v
  end.

Definition map_values (m : DeviceMap) : list USBDevice.t := map snd m.

(** ** Options, events and instance state *)

(** What the awaited [devicesFound] callback does with the candidates:
    resolves to a device, resolves to nothing, or throws / rejects. *)
Inductive Selection : Type :=
| Selected (device : USBDevice.t)
| NothingSelected
| SelectionFailed.

(** [USBOptions]. *)
Record USBOptions : Type := {
  devicesFound : option (list USBDevice.t -> Selection);
  allowedDevices : option (list USBDeviceFilter.t);
  allowAllDevices : bool;
  deviceTimeout : option Z;
  autoDetachKernelDriver : option bool
}.

(** The two channels of the facade and the two raw events of the backend. *)
Inductive Channel : Type := connect | disconnect.
Inductive UsbEvent : Type := attach | detach.

(** Calls made on the backend, in program order. *)
Inductive BackendCall : Type :=
| GetDeviceList
| SetTimeout (device : Device.t) (timeout : Z)
| CreateInstance (device : Device.t) (autoDetach : option bool)
| UsbAddListener (event : UsbEvent)
| UsbRemoveListener (event : UsbEvent).

(** The object passed to [emitter.emit]. *)
Record USBConnectionEvent : Type := {
  type : Channel;
  device : USBDevice.t
}.

(** Listener functions are compared by reference; a [nat] names one. *)
Definition Listener : Type := nat.

(** Fields of a [WebUSB] instance, followed by what it has done to the
    outside: [attachCallbacks] / [detachCallbacks] count how many times the
    instance's [deviceConnectCallback] / [deviceDisconnectCallback] is
    currently registered on the backend, [backendCalls] logs every backend
    call and [emitted] every [emitter.emit] of a connection event. *)
Record WebUSB : Type := {
  connectListeners : list Listener;
  disconnectListeners : list Listener;
  knownDevices : DeviceMap;
  authorisedDevices : list USBDeviceFilter.t;
  attachCallbacks : nat;
  detachCallbacks : nat;
  backendCalls : list BackendCall;
  emitted : list USBConnectionEvent
}.

(** State of a freshly constructed instance. *)
Definition newWebUSB : WebUSB := {|
  connectListeners := [];
  disconnectListeners := [];
  knownDevices := [];
  authorisedDevices := [];
  attachCallbacks := 0;
  detachCallbacks := 0;
  backendCalls := [];
  emitted := []
|}.

Definition setKnownDevices (m : DeviceMap) (st : WebUSB) : WebUSB := {|
  connectListeners := connectListeners st;
  disconnectListeners := disconnectListeners st;
  knownDevices := m;
  authorisedDevices := authorisedDevices st;
  attachCallbacks := attachCallbacks st;
  detachCallbacks := detachCallbacks st;
  backendCalls := backendCalls st;
  emitted := emitted st
|}.

Definition addAuthorised (f : USBDeviceFilter.t) (st : WebUSB) : WebUSB := {|
  connectListeners := connectListeners st;
  disconnectListeners := disconnectListeners st;
  knownDevices := knownDevices st;
  authorisedDevices := authorisedDevices st ++ [f];
  attachCallbacks := attachCallbacks st;
  detachCallbacks := detachCallbacks st;
  backendCalls := backendCalls st;
  emitted := emitted st
|}.

Definition logCall (c : BackendCall) (st : WebUSB) : WebUSB := {|
  connectListeners := connectListeners st;
  disconnectListeners := disconnectListeners st;
  knownDevices := knownDevices st;
  authorisedDevices := authorisedDevices st;
  attachCallbacks := attachCallbacks st;
  detachCallbacks := detachCallbacks st;
  backendCalls := backendCalls st ++ [c];
  emitted := emitted st
|}.

Definition emit (e : USBConnectionEvent) (st : WebUSB) : WebUSB := {|
  connectListeners := connectListeners st;
  disconnectListeners := disconnectListeners st;
  knownDevices := knownDevices st;
  authorisedDevices := authorisedDevices st;
  attachCallbacks := attachCallbacks st;
  detachCallbacks := detachCallbacks st;
  backendCalls := backendCalls st;
  emitted := emitted st ++ [e]
|}.

(** ** The argument of [requestDevice] as the run-time checks see it *)

(** [options.filters]: absent (falsy), not an array, or an array. *)
Inductive FiltersArg : Type :=
| FiltersUndefined
| FiltersNotArray
| FiltersArray (filters : list USBDeviceFilter.t).

(** [options]: absent (falsy), not a plain object, or a plain object. *)
Inductive RequestArg : Type :=
| ArgMissing
| ArgNotObject
| ArgObject (filters : FiltersArg).

(** Body of the [options.filters.forEach] callback: [Some e] when it throws. *)
Definition checkFilter (filter : USBDeviceFilter.t) : option JsError :=
  if truthyNum (USBDeviceFilter.protocolCode filter)
     && negb (truthyNum (USBDeviceFilter.subclassCode filter))
  then Some (TypeError "requestDevice error: subclass code is required")
  else if truthyNum (USBDeviceFilter.subclassCode filter)
          && negb (truthyNum (USBDeviceFilter.classCode filter))
  then Some (TypeError "requestDevice error: class code is required")
  else None.

(** [options.filters.forEach(...)]: the first throwing filter ends the loop. *)
Fixpoint checkFilters (filters : list USBDeviceFilter.t) : option JsError :=
  match filters with
  | [] => None
  | filter :: rest =>
      match checkFilter filter with
      | Some e => Some e
      | None => checkFilters rest
      end
  end.

(** The object literal added to [authorisedDevices] for a selected device. *)
Definition snapshot (device : USBDevice.t) : USBDeviceFilter.t := {|
  USBDeviceFilter.vendorId := Some (USBDevice.vendorId device);
  USBDeviceFilter.productId := Some (USBDevice.productId device);
  USBDeviceFilter.classCode := Some (USBDevice.deviceClass device);
  USBDeviceFilter.subclassCode := Some (USBDevice.deviceSubclass device);
  USBDeviceFilter.protocolCode := Some (USBDevice.deviceProtocol device);
  USBDeviceFilter.serialNumber := USBDevice.serialNumber device
|}.

(** The callback of [authorisedDevices.values().some] in [isAuthorisedDevice]. *)
Definition authorisedMatches (device : USBDevice.t) (authorised : USBDeviceFilter.t) : bool :=
  strictEqNum (USBDeviceFilter.vendorId authorised) (USBDevice.vendorId device)
  && strictEqNum (USBDeviceFilter.productId authorised) (USBDevice.productId device)
  && strictEqNum (USBDeviceFilter.classCode authorised) (USBDevice.deviceClass device)
  && strictEqNum (USBDeviceFilter.subclassCode authorised) (USBDevice.deviceSubclass device)
  && strictEqNum (USBDeviceFilter.protocolCode authorised) (USBDevice.deviceProtocol device)
  && strictEqStr (USBDeviceFilter.serialNumber authorised) (USBDevice.serialNumber device).

(** ** The emitter (Node's [EventEmitter]) *)

Definition listeners (st : WebUSB) (c : Channel) : list Listener :=
  match c with
  | connect => connectListeners st
  | disconnect => disconnectListeners st
  end.

Definition setListeners (c : Channel) (ls : list Listener) (st : WebUSB) : WebUSB := {|
  connectListeners := match c with connect => ls | disconnect => connectListeners st end;
  disconnectListeners := match c with connect => disconnectListeners st | disconnect => ls end;
  knownDevices := knownDevices st;
  authorisedDevices := authorisedDevices st;
  attachCallbacks := attachCallbacks st;
  detachCallbacks := detachCallbacks st;
  backendCalls := backendCalls st;
  emitted := emitted st
|}.

(** [emitter.listenerCount(event)]. *)
Definition listenerCount (st : WebUSB) (c : Channel) : nat :=
  List.length (listeners st c).

(** [usb.addListener(event, callback)] with the instance's own callback. *)
Definition usbAddListener (e : UsbEvent) (st : WebUSB) : WebUSB := {|
  connectListeners := connectListeners st;
  disconnectListeners := disconnectListeners st;
  knownDevices := knownDevices st;
  authorisedDevices := authorisedDevices st;
  attachCallbacks := match e with attach => S (attachCallbacks st) | detach => attachCallbacks st end;
  detachCallbacks := match e with attach => detachCallbacks st | detach => S (detachCallbacks st) end;
  backendCalls := backendCalls st ++ [UsbAddListener e];
  emitted := emitted st
|}.

(** [usb.removeListener(event, callback)]: removes one registration of the
    callback when there is one. *)
Definition usbRemoveListener (e : UsbEvent) (st : WebUSB) : WebUSB := {|
  connectListeners := connectListeners st;
  disconnectListeners := disconnectListeners st;
  knownDevices := knownDevices st;
  authorisedDevices := authorisedDevices st;
  attachCallbacks := match e with attach => Nat.pred (attachCallbacks st) | detach => attachCallbacks st end;
  detachCallbacks := match e with attach => detachCallbacks st | detach => Nat.pred (detachCallbacks st) end;
  backendCalls := backendCalls st ++ [UsbRemoveListener e];
  emitted := emitted st
|}.

(** The raw event a channel is bridged from. *)
Definition rawEvent (c : Channel) : UsbEvent :=
  match c with
  | connect => attach
  | disconnect => detach
  end.

(** The ['newListener'] handler installed by the constructor.  Node emits
    ['newListener'] before the listener is stored, so [listenerCount] is
    the count before the addition. *)
Definition onNewListener (event : Channel) (st : WebUSB) : WebUSB :=
  if Nat.eqb (listenerCount st event) 0
  then usbAddListener (rawEvent event) st
  else st.

(** The ['removeListener'] handler installed by the constructor.  Node
    emits ['removeListener'] after the listener is gone, so [listenerCount]
    is the count after the removal. *)
Definition onRemoveListener (event : Channel) (st : WebUSB) : WebUSB :=
  if Nat.eqb (listenerCount st event) 0
  then usbRemoveListener (rawEvent event) st
  else st.

(** Node's [removeListener] drops the most recently added registration of
    the listener; [None] when the listener is not registered. *)
Fixpoint removeLast (l : Listener) (ls : list Listener) : option (list Listener) :=
  match ls with
  | [] => None
  | x :: rest =>
      match removeLast l rest with
      | Some rest' => Some (x :: rest')
      | None => if Nat.eqb x l then Some rest else None
      end
  end.

(** [addEventListener(type, listener)] = [emitter.addListener]. *)
Definition addEventListener (type : Channel) (listener : Listener) (st : WebUSB) : WebUSB :=
  let st1 := onNewListener type st in
  setListeners type (listeners st1 type ++ [listener]) st1.

(** [removeEventListener(type, callback)] = [emitter.removeListener]: no
    ['removeListener'] event when the callback was not registered. *)
Definition removeEventListener (type : Channel) (callback : Listener) (st : WebUSB) : WebUSB :=
  match removeLast callback (listeners st type) with
  | None => st
  | Some ls => onRemoveListener type (setListeners type ls st)
  end.

(** ** The facade methods *)

Section Facade.

(** [this.options], fixed at construction. *)
Variable options : USBOptions.

(** [WebUSBDevice.createInstance(device, autoDetachKernelDriver)], the
    adapter collaborator: [None] when it throws. *)
Variable createInstance : Device.t -> option bool -> option USBDevice.t.

(** [isAuthorisedDevice(device)]. *)
Definition isAuthorisedDevice (st : WebUSB) (device : USBDevice.t) : bool :=
  if allowAllDevices options then true
  else if match allowedDevices options with
          | Some fs => filterDevice device (Some fs)
          | None => false
          end
  then true
  else existsb (authorisedMatches device) (authorisedDevices st).

(** [getWebDevice(device)]. *)
Definition getWebDevice (device : Device.t) (st : WebUSB) : option USBDevice.t * WebUSB :=
  if map_has (knownDevices st) device
  then (map_get (knownDevices st) device, st)
  else
    let st1 :=
      match deviceTimeout options with
      | Some t => if t =? 0 then st else logCall (SetTimeout device t) st
      | None => st
      end in
    let st2 := logCall (CreateInstance device (autoDetachKernelDriver options)) st1 in
    match createInstance device (autoDetachKernelDriver options) with
    | Some webDevice =>
        let st3 := setKnownDevices (map_set (knownDevices st2) device webDevice) st2 in
        (map_get (knownDevices st3) device, st3)
    | None => (map_get (knownDevices st2) device, st2)
    end.

(** The [for (const device of devices)] loop of [loadDevices]. *)
Fixpoint adaptAll (devices : list Device.t) (refreshedKnownDevices : DeviceMap)
    (st : WebUSB) : DeviceMap * WebUSB :=
  match devices with
  | [] => (refreshedKnownDevices, st)
  | device :: rest =>
      let '(webDevice, st1) := getWebDevice device st in
      match webDevice with
      | Some w => adaptAll rest (map_set refreshedKnownDevices device w) st1
      | None => adaptAll rest refreshedKnownDevices st1
      end
  end.

(** [loadDevices(preFilters?)]; [deviceList] is what [usb.getDeviceList()]
    returns at the time of the call. *)
Definition loadDevices (deviceList : list Device.t)
    (preFilters : option (list USBDeviceFilter.t)) (st : WebUSB)
    : list USBDevice.t * WebUSB :=
  let st0 := logCall GetDeviceList st in
  let devices := quickFilter deviceList preFilters in
  let '(refreshedKnownDevices, st1) := adaptAll devices [] st0 in
  let st2 := setKnownDevices refreshedKnownDevices st1 in
  (map_values (knownDevices st2), st2).

(** [getDevices()]. *)
Definition getDevices (deviceList : list Device.t) (st : WebUSB)
    : list USBDevice.t * WebUSB :=
  let preFilters := if allowAllDevices options then None else allowedDevices options in
  let '(devices, st1) := loadDevices deviceList preFilters st in
  (filter (isAuthorisedDevice st1) devices, st1).

(** The selection step of [requestDevice]:
    [devicesFound ? await devicesFound(devices) : devices[0]]. *)
Definition selectDevice (devices : list USBDevice.t) : Selection :=
  match devicesFound options with
  | Some callback => callback devices
  | None =>
      match devices with
      | first :: _ => Selected first
      | [] => NothingSelected
      end
  end.

(** [requestDevice(options?)]; the parameter is called [request] here
    because [options] names [this.options]. *)
Definition requestDevice (request : RequestArg) (deviceList : list Device.t)
    (st : WebUSB) : Completion USBDevice.t * WebUSB :=
  match request with
  | ArgMissing =>
      (Thrown (TypeError "requestDevice error: 1 argument required, but only 0 present"), st)
  | ArgNotObject =>
      (Thrown (TypeError "requestDevice error: parameter 1 (options) is not an object"), st)
  | ArgObject FiltersUndefined =>
      (Thrown (TypeError "requestDevice error: required member filters is undefined"), st)
  | ArgObject FiltersNotArray =>
      (Thrown (TypeError
         "requestDevice error: the provided value cannot be converted to a sequence"), st)
  | ArgObject (FiltersArray filters) =>
      match checkFilters filters with
      | Some e => (Thrown e, st)
      | None =>
          let '(loaded, st1) := loadDevices deviceList (Some filters) st in
          let devices := filter (fun device => filterDevice device (Some filters)) loaded in
          if Nat.eqb (List.length devices) 0
          then (Thrown notFoundError, st1)
          else
            match selectDevice devices with
            | Selected device => (Returned device, addAuthorised (snapshot device) st1)
            | NothingSelected => (Thrown notFoundError, st1)
            | SelectionFailed => (Thrown notFoundError, st1)
            end
      end
  end.

(** [deviceConnectCallback], the backend's ['attach'] handler. *)
Definition deviceConnectCallback (device : Device.t) (st : WebUSB) : WebUSB :=
  let '(webDevice, st1) := getWebDevice device st in
  match webDevice with
  | Some w =>
      if isAuthorisedDevice st1 w
      then emit {| type := connect; device := w |} st1
      else st1
  | None => st1
  end.

(** [deviceDisconnectCallback], the backend's ['detach'] handler. *)
Definition deviceDisconnectCallback (device : Device.t) (st : WebUSB) : WebUSB :=
  if map_has (knownDevices st) device
  then
    match map_get (knownDevices st) device with
    | Some w =>
        if isAuthorisedDevice st w
        then emit {| type := disconnect; device := w |} st
        else st
    | None => st
    end
  else st.

End Facade.

(** What [getWebDevice] answers for a raw device given the cache: the
    cached device if there is one, else what the adapter creates. *)
Definition adapted (options : USBOptions)
    (createInstance : Device.t -> option bool -> option USBDevice.t)
    (known : DeviceMap) (device : Device.t) : option USBDevice.t :=
  match map_get known device with
  | Some w => Some w
  | None => createInstance device (autoDetachKernelDriver options)
  end.

(** ** Sequences of listener registrations *)

Inductive ListenerOp : Type :=
| AddListener (type : Channel) (listener : Listener)
| RemoveListener (type : Channel) (listener : Listener).

Definition applyOp (op : ListenerOp) (st : WebUSB) : WebUSB :=
  match op with
  | AddListener c l => addEventListener c l st
  | RemoveListener c l => removeEventListener c l st
  end.

(** Runs the calls in order, leftmost first. *)
Definition runOps (ops : list ListenerOp) (st : WebUSB) : WebUSB :=
  fold_left (fun s op => applyOp op s) ops st.

(** ** Histories of an instance *)

(** What can happen to an instance: the two public methods, a raw backend
    event, a listener registration. *)
Inductive FacadeCall : Type :=
| CallRequestDevice (request : RequestArg) (deviceList : list Device.t)
| CallGetDevices (deviceList : list Device.t)
| RawAttach (device : Device.t)
| RawDetach (device : Device.t)
| CallListener (op : ListenerOp).

(** A raw event reaches the instance only while its callback is
    registered on the backend. *)
Definition applyCall (options : USBOptions)
    (createInstance : Device.t -> option bool -> option USBDevice.t)
    (call : FacadeCall) (st : WebUSB) : WebUSB :=
  match call with
  | CallRequestDevice request deviceList =>
      snd (requestDevice options createInstance request deviceList st)
  | CallGetDevices deviceList => snd (getDevices options createInstance deviceList st)
  | RawAttach device =>
      if Nat.eqb (attachCallbacks st) 0 then st
      else deviceConnectCallback options createInstance device st
  | RawDetach device =>
      if Nat.eqb (detachCallbacks st) 0 then st
      else deviceDisconnectCallback options device st
  | CallListener op => applyOp op st
  end.

Definition runCalls (options : USBOptions)
    (createInstance : Device.t -> option bool -> option USBDevice.t)
    (calls : list FacadeCall) (st : WebUSB) : WebUSB :=
  fold_left (fun s call => applyCall options createInstance call s) calls st.

(** Every cache entry holds what the adapter creates for its key. *)
Definition cacheFromAdapter (options : USBOptions)
    (createInstance : Device.t -> option bool -> option USBDevice.t)
    (st : WebUSB) : Prop :=
  forall k w,
    map_get (knownDevices st) k = Some w ->
    createInstance k (autoDetachKernelDriver options) = Some w.

(** Each backend callback is registered once while its channel has a
    listener, and not at all otherwise. *)
Definition bridged (st : WebUSB) : Prop :=
  attachCallbacks st = (if Nat.eqb (listenerCount st connect) 0 then 0 else 1)%nat
  /\ detachCallbacks st = (if Nat.eqb (listenerCount st disconnect) 0 then 0 else 1)%nat.

(** ** Reading of the filter rules, for comparison with [filterDevice] *)

(** A numeric filter member that is falsy, or equal to the value. *)
Definition fieldOk (f : option Z) (v : Z) : bool :=
  negb (truthyNum f) || strictEqNum f v.

Definition serialOk (filter : USBDeviceFilter.t) (device : USBDevice.t) : bool :=
  negb (truthyStr (USBDeviceFilter.serialNumber filter))
  || strictEqStr (USBDeviceFilter.serialNumber filter) (USBDevice.serialNumber device).

(** The class / subclass / protocol constraint of a filter on three codes. *)
Definition classTripleOk (filter : USBDeviceFilter.t) (c s p : Z) : bool :=
  fieldOk (USBDeviceFilter.classCode filter) c
  && fieldOk (USBDeviceFilter.subclassCode filter) s
  && fieldOk (USBDeviceFilter.protocolCode filter) p.

Definition deviceClassOk (filter : USBDeviceFilter.t) (device : USBDevice.t) : bool :=
  classTripleOk filter (USBDevice.deviceClass device) (USBDevice.deviceSubclass device)
                (USBDevice.deviceProtocol device).

Definition interfaceClassOk (filter : USBDeviceFilter.t) (device : USBDevice.t) : bool :=
  match USBDevice.configuration device with
  | Some interfaces =>
      existsb (fun i => classTripleOk filter (USBInterface.interfaceClass i)
                          (USBInterface.interfaceSubclass i)
                          (USBInterface.interfaceProtocol i)) interfaces
  | None => false
  end.

(** The matching rule as the specification words it, a member being
    specified when it is present: identifiers and serial number agree, and
    the class constraint holds at the device level or on some interface. *)
Definition statedFieldOk (f : option Z) (v : Z) : bool :=
  match f with
  | Some x => x =? v
  | None => true
  end.

Definition statedSerialOk (filter : USBDeviceFilter.t) (device : USBDevice.t) : bool :=
  match USBDeviceFilter.serialNumber filter with
  | Some s => strictEqStr (Some s) (USBDevice.serialNumber device)
  | None => true
  end.

Definition statedTripleOk (filter : USBDeviceFilter.t) (c s p : Z) : bool :=
  statedFieldOk (USBDeviceFilter.classCode filter) c
  && statedFieldOk (USBDeviceFilter.subclassCode filter) s
  && statedFieldOk (USBDeviceFilter.protocolCode filter) p.

Definition statedFilterMatch (device : USBDevice.t) (filter : USBDeviceFilter.t) : bool :=
  statedFieldOk (USBDeviceFilter.vendorId filter) (USBDevice.vendorId device)
  && statedFieldOk (USBDeviceFilter.productId filter) (USBDevice.productId device)
  && statedSerialOk filter device
  && (statedTripleOk filter (USBDevice.deviceClass device) (USBDevice.deviceSubclass device)
                     (USBDevice.deviceProtocol device)
      || match USBDevice.configuration device with
         | Some interfaces =>
             existsb (fun i => statedTripleOk filter (USBInterface.interfaceClass i)
                                 (USBInterface.interfaceSubclass i)
                                 (USBInterface.interfaceProtocol i)) interfaces
         | None => false
         end).

(** The rule [filterDevice] is built on: a member is specified when it is
    truthy, a filter with a class code needs the device to have a
    configuration, and interfaces are consulted only for a filter with a
    class code. *)
Definition guardedFilterMatch (device : USBDevice.t) (filter : USBDeviceFilter.t) : bool :=
  fieldOk (USBDeviceFilter.vendorId filter) (USBDevice.vendorId device)
  && fieldOk (USBDeviceFilter.productId filter) (USBDevice.productId device)
  && serialOk filter device
  && (negb (truthyNum (USBDeviceFilter.classCode filter))
      || match USBDevice.configuration device with Some _ => true | None => false end)
  && (deviceClassOk filter device
      || (truthyNum (USBDeviceFilter.classCode filter) && interfaceClassOk filter device)).

(** Replaces a falsy member by an absent one. *)
Definition dropFalsyNum (x : option Z) : option Z :=
  if truthyNum x then x else None.

Definition dropFalsyStr (x : option string) : option string :=
  if truthyStr x then x else None.

Definition dropFalsy (filter : USBDeviceFilter.t) : USBDeviceFilter.t := {|
  USBDeviceFilter.vendorId := dropFalsyNum (USBDeviceFilter.vendorId filter);
  USBDeviceFilter.productId := dropFalsyNum (USBDeviceFilter.productId filter);
  USBDeviceFilter.classCode := dropFalsyNum (USBDeviceFilter.classCode filter);
  USBDeviceFilter.subclassCode := dropFalsyNum (USBDeviceFilter.subclassCode filter);
  USBDeviceFilter.protocolCode := dropFalsyNum (USBDeviceFilter.protocolCode filter);
  USBDeviceFilter.serialNumber := dropFalsyStr (USBDeviceFilter.serialNumber filter)
|}.

(** A request that passes every check of [requestDevice]. *)
Definition wellFormed (request : RequestArg) : bool :=
  match request with
  | ArgObject (FiltersArray filters) =>
      match checkFilters filters with
      | None => true
      | Some _ => false
      end
  | _ => false
  end.

(** The devices [requestDevice] offers for selection. *)
Definition candidates (options : USBOptions)
    (createInstance : Device.t -> option bool -> option USBDevice.t)
    (filters : list USBDeviceFilter.t) (deviceList : list Device.t) (st : WebUSB)
    : list USBDevice.t :=
  filter (fun device => filterDevice device (Some filters))
         (fst (loadDevices options createInstance deviceList (Some filters) st)).

(** The three situations in which no device is selected: nothing survives
    filtering, the selection callback resolves to nothing, or the selection
    callback fails. *)
Definition notFoundCase (options : USBOptions) (devices : list USBDevice.t) : Prop :=
  devices = []
  \/ (exists callback, devicesFound options = Some callback
                       /\ callback devices = NothingSelected)
  \/ (exists callback, devicesFound options = Some callback
                       /\ callback devices = SelectionFailed).

Definition isSet (x : option Z) : bool :=
  match x with
  | Some _ => true
  | None => false
  end.

(** The hierarchy rule as the specification words it: a filter breaks it
    when protocolCode is set and subclassCode is not, or subclassCode is set
    and classCode is not. *)
Definition statedBreaksHierarchy (filter : USBDeviceFilter.t) : bool :=
  (isSet (USBDeviceFilter.protocolCode filter)
   && negb (isSet (USBDeviceFilter.subclassCode filter)))
  || (isSet (USBDeviceFilter.subclassCode filter)
      && negb (isSet (USBDeviceFilter.classCode filter))).

(** The same rule with a member counted as set when it is truthy. *)
Definition breaksHierarchy (filter : USBDeviceFilter.t) : bool :=
  (truthyNum (USBDeviceFilter.protocolCode filter)
   && negb (truthyNum (USBDeviceFilter.subclassCode filter)))
  || (truthyNum (USBDeviceFilter.subclassCode filter)
      && negb (truthyNum (USBDeviceFilter.classCode filter))).

(** ** Concrete scenario: two devices on the bus *)

(** A filter that names nothing. *)
Definition anyFilter : USBDeviceFilter.t := {|
  USBDeviceFilter.vendorId := None;
  USBDeviceFilter.productId := None;
  USBDeviceFilter.classCode := None;
  USBDeviceFilter.subclassCode := None;
  USBDeviceFilter.protocolCode := None;
  USBDeviceFilter.serialNumber := None
|}.

Definition vendorFilter (v : Z) : USBDeviceFilter.t := {|
  USBDeviceFilter.vendorId := Some v;
  USBDeviceFilter.productId := None;
  USBDeviceFilter.classCode := None;
  USBDeviceFilter.subclassCode := None;
  USBDeviceFilter.protocolCode := None;
  USBDeviceFilter.serialNumber := None
|}.

Definition classFilter (c : Z) (serial : option string) : USBDeviceFilter.t := {|
  USBDeviceFilter.vendorId := None;
  USBDeviceFilter.productId := None;
  USBDeviceFilter.classCode := Some c;
  USBDeviceFilter.subclassCode := None;
  USBDeviceFilter.protocolCode := None;
  USBDeviceFilter.serialNumber := serial
|}.

(** A filter that names only class, subclass and protocol codes. *)
Definition codesFilter (c s p : option Z) : USBDeviceFilter.t := {|
  USBDeviceFilter.vendorId := None;
  USBDeviceFilter.productId := None;
  USBDeviceFilter.classCode := c;
  USBDeviceFilter.subclassCode := s;
  USBDeviceFilter.protocolCode := p;
  USBDeviceFilter.serialNumber := None
|}.

(** An adapter that copies the descriptor identifiers and reports a
    device-level class 0 with no interface. *)
Definition plainAdapter (device : Device.t) (autoDetach : option bool)
    : option USBDevice.t :=
  Some {|
    USBDevice.vendorId := Device.idVendor device;
    USBDevice.productId := Device.idProduct device;
    USBDevice.deviceClass := 0;
    USBDevice.deviceSubclass := 0;
    USBDevice.deviceProtocol := 0;
    USBDevice.serialNumber := None;
    USBDevice.configuration := Some []
  |}.

Definition rawA : Device.t := Device.mk 1 0x1234 0x5678.
Definition rawB : Device.t := Device.mk 2 0x1111 0x2222.

Definition webA : USBDevice.t := {|
  USBDevice.vendorId := 0x1234;
  USBDevice.productId := 0x5678;
  USBDevice.deviceClass := 0;
  USBDevice.deviceSubclass := 0;
  USBDevice.deviceProtocol := 0;
  USBDevice.serialNumber := None;
  USBDevice.configuration := Some []
|}.

Definition webB : USBDevice.t := {|
  USBDevice.vendorId := 0x1111;
  USBDevice.productId := 0x2222;
  USBDevice.deviceClass := 0;
  USBDevice.deviceSubclass := 0;
  USBDevice.deviceProtocol := 0;
  USBDevice.serialNumber := None;
  USBDevice.configuration := Some []
|}.

(** [new WebUSB({ allowedDevices: [{ vendorId: 0x1111 }] })]. *)
Definition staticOptions : USBOptions := {|
  devicesFound := None;
  allowedDevices := Some [vendorFilter 0x1111];
  allowAllDevices := false;
  deviceTimeout := None;
  autoDetachKernelDriver := None
|}.

(** [new WebUSB({ allowAllDevices: true })]. *)
Definition openOptions : USBOptions := {|
  devicesFound := None;
  allowedDevices := None;
  allowAllDevices := true;
  deviceTimeout := None;
  autoDetachKernelDriver := None
|}.

(** An instance whose cache holds the first device. *)
Definition cachedA : WebUSB := setKnownDevices [(rawA, webA)] newWebUSB.

(** An adapter that fails on the second device, and a history in which
    both channels get a listener, both devices are attached and the devices
    are listed. *)
Definition brokenAdapter (device : Device.t) (autoDetach : option bool)
    : option USBDevice.t :=
  if Device.eqb device rawB then None else plainAdapter device autoDetach.

Definition busHistory : list FacadeCall :=
  [CallListener (AddListener connect 1%nat);
   CallListener (AddListener disconnect 2%nat);
   RawAttach rawA;
   RawAttach rawB;
   CallGetDevices [rawA; rawB]].

(** A HID-class device (class 3 at the device level) that has no
    configuration, and one with a HID interface and a serial number. *)
Definition hidUnconfigured : USBDevice.t := {|
  USBDevice.vendorId := 0x1234;
  USBDevice.productId := 0x5678;
  USBDevice.deviceClass := 3;
  USBDevice.deviceSubclass := 0;
  USBDevice.deviceProtocol := 0;
  USBDevice.serialNumber := None;
  USBDevice.configuration := None
|}.

Definition hidComposite : USBDevice.t := {|
  USBDevice.vendorId := 0x1234;
  USBDevice.productId := 0x5678;
  USBDevice.deviceClass := 0;
  USBDevice.deviceSubclass := 0;
  USBDevice.deviceProtocol := 0;
  USBDevice.serialNumber := Some "B"%string;
  USBDevice.configuration := Some [USBInterface.mk 3 0 0]
|}.

(** ** The [onconnect] / [ondisconnect] handler slots *)

(** An instance together with its two private slots [_onconnect] and
    [_ondisconnect]; an empty slot is [undefined]. *)
Record Handlers : Type := {
  instance : WebUSB;
  _onconnect : option Listener;
  _ondisconnect : option Listener
}.

Definition newHandlers : Handlers := {|
  instance := newWebUSB;
  _onconnect := None;
  _ondisconnect := None
|}.

(** [set onconnect(fn)]; [fn] is [None] when the argument is falsy. *)
Definition setOnconnect (fn : option Listener) (h : Handlers) : Handlers :=
  let h1 :=
    match _onconnect h with
    | Some old => {|
        instance := removeEventListener connect old (instance h);
        _onconnect := None;
        _ondisconnect := _ondisconnect h
      |}
    | None => h
    end in
  match fn with
  | Some f => {|
      instance := addEventListener connect f (instance h1);
      _onconnect := Some f;
      _ondisconnect := _ondisconnect h1
    |}
  | None => h1
  end.

(** [set ondisconnect(fn)]. *)
Definition setOndisconnect (fn : option Listener) (h : Handlers) : Handlers :=
  let h1 :=
    match _ondisconnect h with
    | Some old => {|
        instance := removeEventListener disconnect old (instance h);
        _onconnect := _onconnect h;
        _ondisconnect := None
      |}
    | None => h
    end in
  match fn with
  | Some f => {|
      instance := addEventListener disconnect f (instance h1);
      _onconnect := _onconnect h1;
      _ondisconnect := Some f
    |}
  | None => h1
  end.

(** Assignments to the two slots, run in order. *)
Inductive SlotCall : Type :=
| SetOnconnect (fn : option Listener)
| SetOndisconnect (fn : option Listener).

Definition applySlotCall (call : SlotCall) (h : Handlers) : Handlers :=
  match call with
  | SetOnconnect fn => setOnconnect fn h
  | SetOndisconnect fn => setOndisconnect fn h
  end.

Definition runSlotCalls (calls : list SlotCall) (h : Handlers) : Handlers :=
  fold_left (fun s call => applySlotCall call s) calls h.

(** The listeners a slot accounts for. *)
Definition slotListeners (slot : option Listener) : list Listener :=
  match slot with
  | Some f => [f]
  | None => []
  end.

(** The last value assigned to [onconnect] in a run, [start] if none. *)
Fixpoint lastOnconnect (calls : list SlotCall) (start : option Listener) : option Listener :=
  match calls with
  | [] => start
  | SetOnconnect fn :: rest => lastOnconnect rest fn
  | SetOndisconnect _ :: rest => lastOnconnect rest start
  end.

(** The listeners of each channel are exactly what the slots hold, and the
    backend registrations follow the listener counts. *)
Definition slotsHold (h : Handlers) : Prop :=
  connectListeners (instance h) = slotListeners (_onconnect h)
  /\ disconnectListeners (instance h) = slotListeners (_ondisconnect h)
  /\ bridged (instance h).

(** 1 when the listener is the one named, else 0. *)
Definition oneIf (named : option Listener) (x : Listener) : nat :=
  match named with
  | Some f => if Nat.eqb f x then 1 else 0
  | None => 0
  end.

(** 1 when [x] is the slot's handler and is registered among [ls]. *)
Definition slotRegistered (slot : option Listener) (ls : list Listener) (x : Listener) : nat :=
  match slot with
  | Some old => if Nat.eqb old x && existsb (Nat.eqb old) ls then 1 else 0
  | None => 0
  end.

(** ** Auxiliary notions for the properties below *)

(** Two states with the same listeners, backend registrations and emitted
    events. *)
Definition sameBridge (st st' : WebUSB) : Prop :=
  connectListeners st' = connectListeners st
  /\ disconnectListeners st' = disconnectListeners st
  /\ attachCallbacks st' = attachCallbacks st
  /\ detachCallbacks st' = detachCallbacks st
  /\ emitted st' = emitted st.

(** Every event emitted so far carries a device that is authorised now and
    that the adapter created for some raw device. *)
Definition noticesSound (options : USBOptions)
    (createInstance : Device.t -> option bool -> option USBDevice.t)
    (st : WebUSB) : Prop :=
  forall e,
    In e (emitted st) ->
    isAuthorisedDevice options st (device e) = true
    /\ exists raw, createInstance raw (autoDetachKernelDriver options) = Some (device e).


(** How many times the backend was asked to add, resp. remove, the
    callback of a raw event. *)
Definition isUsbAdd (e : UsbEvent) (c : BackendCall) : bool :=
  match c, e with
  | UsbAddListener attach, attach => true
  | UsbAddListener detach, detach => true
  | _, _ => false
  end.

Definition isUsbRemove (e : UsbEvent) (c : BackendCall) : bool :=
  match c, e with
  | UsbRemoveListener attach, attach => true
  | UsbRemoveListener detach, detach => true
  | _, _ => false
  end.

Definition subscriptions (e : UsbEvent) (log : list BackendCall) : nat :=
  List.length (filter (isUsbAdd e) log).

Definition unsubscriptions (e : UsbEvent) (log : list BackendCall) : nat :=
  List.length (filter (isUsbRemove e) log).

(** The number of registrations of the callback of a raw event. *)
Definition callbacks (st : WebUSB) (e : UsbEvent) : nat :=
  match e with
  | attach => attachCallbacks st
  | detach => detachCallbacks st
  end.

(** The backend-call log accounts for the current registrations: for each
    raw event, additions = removals + registrations still in place. *)
Definition balanced (st : WebUSB) : Prop :=
  forall e,
    subscriptions e (backendCalls st)
    = (unsubscriptions e (backendCalls st) + callbacks st e)%nat.

(** Two states whose logs hold the same listener calls for every raw event
    and whose backend registrations agree. *)
Definition sameUsbCalls (st st' : WebUSB) : Prop :=
  forall e,
    subscriptions e (backendCalls st') = subscriptions e (backendCalls st)
    /\ unsubscriptions e (backendCalls st') = unsubscriptions e (backendCalls st)
    /\ callbacks st' e = callbacks st e.

(** A second instance state for the scenarios: both devices cached, one
    connect listener registered. *)
Definition cachedBoth : WebUSB :=
  setKnownDevices [(rawA, webA); (rawB, webB)] (addEventListener connect 1%nat newWebUSB).

(** The request for vendor 0x1234 and the state it leaves on the two-device
    bus under [staticOptions]. *)
Definition requestA : RequestArg := ArgObject (FiltersArray [vendorFilter 0x1234]).

Definition afterRequestA : WebUSB :=
  snd (requestDevice staticOptions plainAdapter requestA [rawA; rawB] newWebUSB).

(** [new WebUSB()] with no option set. *)
Definition noOptions : USBOptions := {|
  devicesFound := None;
  allowedDevices := None;
  allowAllDevices := false;
  deviceTimeout := None;
  autoDetachKernelDriver := None
|}.

(** * Properties *)

(** ** FilterMatcher *)

Lemma interfaceMatches_triple (filter : USBDeviceFilter.t) (i : USBInterface.t) :
  interfaceMatches filter i
  = classTripleOk filter (USBInterface.interfaceClass i) (USBInterface.interfaceSubclass i)
                  (USBInterface.interfaceProtocol i).
Proof.
  unfold interfaceMatches, classTripleOk, fieldOk.
  destruct (truthyNum (USBDeviceFilter.classCode filter)),
           (strictEqNum (USBDeviceFilter.classCode filter) (USBInterface.interfaceClass i)),
           (truthyNum (USBDeviceFilter.subclassCode filter)),
           (strictEqNum (USBDeviceFilter.subclassCode filter) (USBInterface.interfaceSubclass i)),
           (truthyNum (USBDeviceFilter.protocolCode filter)),
           (strictEqNum (USBDeviceFilter.protocolCode filter) (USBInterface.interfaceProtocol i));
    reflexivity.
Qed.

Lemma interfaces_some_triple (filter : USBDeviceFilter.t) (interfaces : list USBInterface.t) :
  existsb (interfaceMatches filter) interfaces
  = existsb (fun i => classTripleOk filter (USBInterface.interfaceClass i)
                        (USBInterface.interfaceSubclass i)
                        (USBInterface.interfaceProtocol i)) interfaces.
Proof.
  induction interfaces as [|i rest IH]; simpl.
  - reflexivity.
  - rewrite interfaceMatches_triple, IH. reflexivity.
Qed.

Lemma deviceLevelMatches_split (device : USBDevice.t) (filter : USBDeviceFilter.t) :
  deviceLevelMatches device filter = deviceClassOk filter device && serialOk filter device.
Proof.
  unfold deviceLevelMatches, deviceClassOk, classTripleOk, serialOk, fieldOk.
  destruct (truthyNum (USBDeviceFilter.classCode filter)),
           (strictEqNum (USBDeviceFilter.classCode filter) (USBDevice.deviceClass device)),
           (truthyNum (USBDeviceFilter.subclassCode filter)),
           (strictEqNum (USBDeviceFilter.subclassCode filter) (USBDevice.deviceSubclass device)),
           (truthyNum (USBDeviceFilter.protocolCode filter)),
           (strictEqNum (USBDeviceFilter.protocolCode filter) (USBDevice.deviceProtocol device)),
           (truthyStr (USBDeviceFilter.serialNumber filter)),
           (strictEqStr (USBDeviceFilter.serialNumber filter) (USBDevice.serialNumber device));
    reflexivity.
Qed.

(** The [filters.some] callback, written with the rule's components. *)
Lemma filterDeviceOne_unfold (device : USBDevice.t) (filter : USBDeviceFilter.t) :
  filterDeviceOne device filter
  = fieldOk (USBDeviceFilter.vendorId filter) (USBDevice.vendorId device)
    && fieldOk (USBDeviceFilter.productId filter) (USBDevice.productId device)
    && (if truthyNum (USBDeviceFilter.classCode filter)
        then match USBDevice.configuration device with
             | None => false
             | Some _ =>
                 interfaceClassOk filter device
                 || (deviceClassOk filter device && serialOk filter device)
             end
        else deviceClassOk filter device && serialOk filter device).
Proof.
  unfold filterDeviceOne, interfaceClassOk, fieldOk.
  rewrite deviceLevelMatches_split.
  destruct (USBDevice.configuration device) as [interfaces|].
  - rewrite interfaces_some_triple.
    set (hit := existsb _ interfaces).
    destruct (truthyNum (USBDeviceFilter.vendorId filter)),
             (strictEqNum (USBDeviceFilter.vendorId filter) (USBDevice.vendorId device)),
             (truthyNum (USBDeviceFilter.productId filter)),
             (strictEqNum (USBDeviceFilter.productId filter) (USBDevice.productId device)),
             (truthyNum (USBDeviceFilter.classCode filter)),
             hit;
      reflexivity.
  - destruct (truthyNum (USBDeviceFilter.vendorId filter)),
             (strictEqNum (USBDeviceFilter.vendorId filter) (USBDevice.vendorId device)),
             (truthyNum (USBDeviceFilter.productId filter)),
             (strictEqNum (USBDeviceFilter.productId filter) (USBDevice.productId device)),
             (truthyNum (USBDeviceFilter.classCode filter));
      reflexivity.
Qed.

(** Outside the case "the filter has a class code, an interface satisfies
    its class constraint and the serial number differs", the callback is the
    guarded rule. *)
Lemma filterDeviceOne_guarded (device : USBDevice.t) (filter : USBDeviceFilter.t) :
  serialOk filter device = true
  \/ truthyNum (USBDeviceFilter.classCode filter) = false
  \/ interfaceClassOk filter device = false ->
  filterDeviceOne device filter = guardedFilterMatch device filter.
Proof.
  intros H. rewrite filterDeviceOne_unfold. unfold guardedFilterMatch.
  assert (Hcfg : USBDevice.configuration device = None ->
                 interfaceClassOk filter device = false).
  { unfold interfaceClassOk. intros ->. reflexivity. }
  destruct (USBDevice.configuration device) as [interfaces|].
  - clear Hcfg.
    destruct (fieldOk (USBDeviceFilter.vendorId filter) (USBDevice.vendorId device)),
             (fieldOk (USBDeviceFilter.productId filter) (USBDevice.productId device)),
             (truthyNum (USBDeviceFilter.classCode filter)),
             (interfaceClassOk filter device),
             (deviceClassOk filter device),
             (serialOk filter device);
      simpl; try reflexivity; destruct H as [H | [H | H]]; discriminate.
  - rewrite (Hcfg eq_refl).
    destruct (fieldOk (USBDeviceFilter.vendorId filter) (USBDevice.vendorId device)),
             (fieldOk (USBDeviceFilter.productId filter) (USBDevice.productId device)),
             (truthyNum (USBDeviceFilter.classCode filter)),
             (deviceClassOk filter device),
             (serialOk filter device);
      reflexivity.
Qed.

Lemma filterDevice_nonempty (device : USBDevice.t) (filters : list USBDeviceFilter.t) :
  filters <> [] ->
  filterDevice device (Some filters) = existsb (filterDeviceOne device) filters.
Proof.
  destruct filters; [congruence | reflexivity].
Qed.

(** C3, the rule as stated does not hold: a device whose top-level class is
    3 but which has no configuration satisfies the stated rule for the
    filter [{classCode: 3}], and [filterDevice] rejects it. *)
Lemma filterDevice_stated_rule_fails :
  ~ (filterDevice hidUnconfigured (Some [classFilter 3 None]) = true
     <-> exists f, In f [classFilter 3 None] /\ statedFilterMatch hidUnconfigured f = true).
Proof.
  intros [_ H].
  assert (Hcode : filterDevice hidUnconfigured (Some [classFilter 3 None]) = false)
    by reflexivity.
  rewrite Hcode in H. apply Bool.diff_false_true, H.
  exists (classFilter 3 None). split; [left; reflexivity | reflexivity].
Qed.

(** The other place where [filterDevice] leaves the stated rule: once an
    interface satisfies the class constraint the callback returns before
    the serial number is compared. *)
Example filterDevice_interface_hit_skips_serial :
  filterDevice hidComposite (Some [classFilter 3 (Some "A"%string)]) = true
  /\ statedFilterMatch hidComposite (classFilter 3 (Some "A"%string)) = false.
Proof. split; reflexivity. Qed.

(** A vendorId of 0 is present in the filter and constrains nothing. *)
Example filterDevice_zero_vendor_matches :
  filterDevice webA (Some [vendorFilter 0]) = true
  /\ statedFilterMatch webA (vendorFilter 0) = false.
Proof. split; reflexivity. Qed.

(** The specification's scenario: device-level class 0, one interface of
    class 3, filter [{classCode: 3}]. *)
Example filterDevice_composite_scenario :
  filterDevice hidComposite (Some [classFilter 3 None]) = true.
Proof. reflexivity. Qed.

(** C3, amended: for every device and every non-empty filter list in which
    no filter has at once a class code, an interface of the device that
    satisfies its class constraint and a serial number that differs from
    the device's, [filterDevice] accepts the device iff some filter of the
    list matches by the guarded rule: vendorId, productId and serialNumber
    (when truthy) equal the device's fields, a filter with a class code
    requires the device to have a configuration, and the class / subclass /
    protocol constraint holds on the device's top-level fields or, for a
    filter with a class code, on some interface. *)
Theorem filterDevice_guarded_rule (device : USBDevice.t) (filters : list USBDeviceFilter.t) :
  filters <> [] ->
  (forall f, In f filters ->
             serialOk f device = true
             \/ truthyNum (USBDeviceFilter.classCode f) = false
             \/ interfaceClassOk f device = false) ->
  (filterDevice device (Some filters) = true
   <-> exists f, In f filters /\ guardedFilterMatch device f = true).
Proof.
  intros Hne Hsafe. rewrite (filterDevice_nonempty device filters Hne), existsb_exists.
  split; intros [f [Hin Hf]]; exists f; split; trivial.
  - rewrite <- (filterDeviceOne_guarded device f (Hsafe f Hin)). exact Hf.
  - rewrite (filterDeviceOne_guarded device f (Hsafe f Hin)). exact Hf.
Qed.

Lemma filterDevice_guarded_rule_witness :
  [classFilter 3 None] <> []
  /\ (forall f, In f [classFilter 3 None] ->
                serialOk f hidComposite = true
                \/ truthyNum (USBDeviceFilter.classCode f) = false
                \/ interfaceClassOk f hidComposite = false)
  /\ (filterDevice hidComposite (Some [classFilter 3 None]) = true
      <-> exists f, In f [classFilter 3 None] /\ guardedFilterMatch hidComposite f = true).
Proof.
  assert (Hne : [classFilter 3 None] <> []) by discriminate.
  assert (Hsafe : forall f, In f [classFilter 3 None] ->
            serialOk f hidComposite = true
            \/ truthyNum (USBDeviceFilter.classCode f) = false
            \/ interfaceClassOk f hidComposite = false).
  { intros f [<- | []]. left. reflexivity. }
  split; [exact Hne | split; [exact Hsafe |]].
  exact (filterDevice_guarded_rule hidComposite [classFilter 3 None] Hne Hsafe).
Defined.

Lemma filter_twice {A : Type} (p : A -> bool) (l : list A) :
  filter p (filter p l) = filter p l.
Proof.
  induction l as [|a l IH]; simpl.
  - reflexivity.
  - destruct (p a) eqn:Hp; simpl.
    + rewrite Hp, IH. reflexivity.
    + exact IH.
Qed.

(** C8: for every device list and every filter argument, the filter pass
    [devices.filter(device => filterDevice(device, filters))] is
    idempotent. *)
Theorem filterDevice_idempotent (devices : list USBDevice.t)
    (filters : option (list USBDeviceFilter.t)) :
  filter (fun device => filterDevice device filters)
         (filter (fun device => filterDevice device filters) devices)
  = filter (fun device => filterDevice device filters) devices.
Proof.
  apply filter_twice.
Qed.

(** ** Falsy filter members *)

Lemma truthyNum_dropFalsy (x : option Z) : truthyNum (dropFalsyNum x) = truthyNum x.
Proof.
  unfold dropFalsyNum. destruct (truthyNum x) eqn:H; [exact H | reflexivity].
Qed.

Lemma guardNum_dropFalsy (x : option Z) (v : Z) :
  truthyNum (dropFalsyNum x) && negb (strictEqNum (dropFalsyNum x) v)
  = truthyNum x && negb (strictEqNum x v).
Proof.
  unfold dropFalsyNum. destruct (truthyNum x) eqn:H; [rewrite H |]; reflexivity.
Qed.

Lemma guardStr_dropFalsy (x y : option string) :
  truthyStr (dropFalsyStr x) && negb (strictEqStr (dropFalsyStr x) y)
  = truthyStr x && negb (strictEqStr x y).
Proof.
  unfold dropFalsyStr. destruct (truthyStr x) eqn:H; [rewrite H |]; reflexivity.
Qed.

Lemma quickFilterOne_dropFalsy (device : Device.t) (filter : USBDeviceFilter.t) :
  quickFilterOne device (dropFalsy filter) = quickFilterOne device filter.
Proof.
  unfold quickFilterOne. simpl. rewrite !guardNum_dropFalsy. reflexivity.
Qed.

Lemma interfaceMatches_dropFalsy (filter : USBDeviceFilter.t) (i : USBInterface.t) :
  interfaceMatches (dropFalsy filter) i = interfaceMatches filter i.
Proof.
  unfold interfaceMatches. simpl. rewrite !guardNum_dropFalsy. reflexivity.
Qed.

Lemma deviceLevelMatches_dropFalsy (device : USBDevice.t) (filter : USBDeviceFilter.t) :
  deviceLevelMatches device (dropFalsy filter) = deviceLevelMatches device filter.
Proof.
  unfold deviceLevelMatches. simpl.
  rewrite !guardNum_dropFalsy, guardStr_dropFalsy. reflexivity.
Qed.

Lemma interfaces_some_dropFalsy (filter : USBDeviceFilter.t)
    (interfaces : list USBInterface.t) :
  existsb (interfaceMatches (dropFalsy filter)) interfaces
  = existsb (interfaceMatches filter) interfaces.
Proof.
  induction interfaces as [|i rest IH]; simpl; [reflexivity|].
  rewrite interfaceMatches_dropFalsy, IH. reflexivity.
Qed.

Lemma filterDeviceOne_dropFalsy (device : USBDevice.t) (filter : USBDeviceFilter.t) :
  filterDeviceOne device (dropFalsy filter) = filterDeviceOne device filter.
Proof.
  unfold filterDeviceOne.
  rewrite deviceLevelMatches_dropFalsy.
  destruct (USBDevice.configuration device) as [interfaces|].
  - rewrite interfaces_some_dropFalsy.
    cbn [dropFalsy USBDeviceFilter.vendorId USBDeviceFilter.productId
         USBDeviceFilter.classCode].
    rewrite !guardNum_dropFalsy, truthyNum_dropFalsy. reflexivity.
  - cbn [dropFalsy USBDeviceFilter.vendorId USBDeviceFilter.productId
         USBDeviceFilter.classCode].
    rewrite !guardNum_dropFalsy, truthyNum_dropFalsy. reflexivity.
Qed.

Lemma checkFilter_dropFalsy (filter : USBDeviceFilter.t) :
  checkFilter (dropFalsy filter) = checkFilter filter.
Proof.
  unfold checkFilter. simpl. rewrite !truthyNum_dropFalsy. reflexivity.
Qed.

Lemma existsb_map_same {A : Type} (p : A -> bool) (g : A -> A) (l : list A) :
  (forall a, p (g a) = p a) -> existsb p (map g l) = existsb p l.
Proof.
  intros H. induction l as [|a l IH]; simpl; [reflexivity|].
  rewrite H, IH. reflexivity.
Qed.

Lemma quickFilter_dropFalsy (devices : list Device.t) (filters : list USBDeviceFilter.t) :
  quickFilter devices (Some (map dropFalsy filters)) = quickFilter devices (Some filters).
Proof.
  destruct filters as [|f rest]; [reflexivity|].
  unfold quickFilter. cbn [map].
  apply filter_ext. intros device.
  change (dropFalsy f :: map dropFalsy rest) with (map dropFalsy (f :: rest)).
  apply existsb_map_same, quickFilterOne_dropFalsy.
Qed.

Lemma filterDevice_dropFalsy (device : USBDevice.t) (filters : list USBDeviceFilter.t) :
  filterDevice device (Some (map dropFalsy filters)) = filterDevice device (Some filters).
Proof.
  destruct filters as [|f rest]; [reflexivity|].
  unfold filterDevice. cbn [map].
  change (dropFalsy f :: map dropFalsy rest) with (map dropFalsy (f :: rest)).
  apply existsb_map_same, filterDeviceOne_dropFalsy.
Qed.

Lemma checkFilters_dropFalsy (filters : list USBDeviceFilter.t) :
  checkFilters (map dropFalsy filters) = checkFilters filters.
Proof.
  induction filters as [|f rest IH]; simpl; [reflexivity|].
  rewrite checkFilter_dropFalsy, IH. reflexivity.
Qed.

(** ** requestDevice *)

Section RequestDevice.

Variable options : USBOptions.
Variable createInstance : Device.t -> option bool -> option USBDevice.t.

Lemma getWebDevice_authorised (device : Device.t) (st : WebUSB) :
  authorisedDevices (snd (getWebDevice options createInstance device st))
  = authorisedDevices st.
Proof.
  unfold getWebDevice.
  destruct (map_has (knownDevices st) device); [reflexivity|].
  destruct (createInstance device (autoDetachKernelDriver options)) as [w|];
    destruct (deviceTimeout options) as [ms|]; try destruct (ms =? 0); reflexivity.
Qed.

Lemma adaptAll_authorised (devices : list Device.t) (refreshed : DeviceMap) (st : WebUSB) :
  authorisedDevices (snd (adaptAll options createInstance devices refreshed st))
  = authorisedDevices st.
Proof.
  revert refreshed st. induction devices as [|device rest IH]; intros refreshed st.
  - reflexivity.
  - simpl. pose proof (getWebDevice_authorised device st) as Hg.
    destruct (getWebDevice options createInstance device st) as [[w|] st1];
      simpl in Hg; rewrite IH; exact Hg.
Qed.

Lemma loadDevices_authorised (deviceList : list Device.t)
    (preFilters : option (list USBDeviceFilter.t)) (st : WebUSB) :
  authorisedDevices (snd (loadDevices options createInstance deviceList preFilters st))
  = authorisedDevices st.
Proof.
  unfold loadDevices.
  pose proof (adaptAll_authorised (quickFilter deviceList preFilters) []
                (logCall GetDeviceList st)) as Ha.
  destruct (adaptAll options createInstance (quickFilter deviceList preFilters) []
              (logCall GetDeviceList st)) as [refreshed st1].
  simpl in *. exact Ha.
Qed.

(** [requestDevice] on a request that passed validation, in terms of the
    candidate list and the selection step. *)
Lemma requestDevice_validated (filters : list USBDeviceFilter.t)
    (deviceList : list Device.t) (st : WebUSB) :
  checkFilters filters = None ->
  requestDevice options createInstance (ArgObject (FiltersArray filters)) deviceList st
  = let devices := candidates options createInstance filters deviceList st in
    let st1 := snd (loadDevices options createInstance deviceList (Some filters) st) in
    match devices with
    | [] => (Thrown notFoundError, st1)
    | _ :: _ =>
        match selectDevice options devices with
        | Selected device => (Returned device, addAuthorised (snapshot device) st1)
        | NothingSelected => (Thrown notFoundError, st1)
        | SelectionFailed => (Thrown notFoundError, st1)
        end
    end.
Proof.
  intros Hok. unfold requestDevice, candidates. rewrite Hok.
  destruct (loadDevices options createInstance deviceList (Some filters) st)
    as [loaded st1].
  cbn [fst snd].
  destruct (filter (fun device => filterDevice device (Some filters)) loaded);
    reflexivity.
Qed.

Lemma checkFilter_throws_TypeError (filter : USBDeviceFilter.t) (e : JsError) :
  checkFilter filter = Some e -> exists message, e = TypeError message.
Proof.
  unfold checkFilter.
  destruct (truthyNum (USBDeviceFilter.protocolCode filter)
            && negb (truthyNum (USBDeviceFilter.subclassCode filter))).
  - intros [= <-]. eexists. reflexivity.
  - destruct (truthyNum (USBDeviceFilter.subclassCode filter)
              && negb (truthyNum (USBDeviceFilter.classCode filter))).
    + intros [= <-]. eexists. reflexivity.
    + discriminate.
Qed.

Lemma checkFilter_breaksHierarchy (filter : USBDeviceFilter.t) :
  breaksHierarchy filter = true -> exists e, checkFilter filter = Some e.
Proof.
  unfold breaksHierarchy, checkFilter.
  destruct (truthyNum (USBDeviceFilter.protocolCode filter)
            && negb (truthyNum (USBDeviceFilter.subclassCode filter))).
  - intros _. eexists. reflexivity.
  - destruct (truthyNum (USBDeviceFilter.subclassCode filter)
              && negb (truthyNum (USBDeviceFilter.classCode filter))).
    + intros _. eexists. reflexivity.
    + discriminate.
Qed.

Lemma checkFilters_breaksHierarchy (filters : list USBDeviceFilter.t)
    (f : USBDeviceFilter.t) :
  In f filters -> breaksHierarchy f = true ->
  exists message, checkFilters filters = Some (TypeError message).
Proof.
  induction filters as [|g rest IH]; intros Hin Hbad.
  - destruct Hin.
  - simpl. destruct (checkFilter g) as [e|] eqn:Hg.
    + destruct (checkFilter_throws_TypeError g e Hg) as [message ->].
      exists message. reflexivity.
    + destruct Hin as [-> | Hin].
      * destruct (checkFilter_breaksHierarchy f Hbad) as [e He]. congruence.
      * exact (IH Hin Hbad).
Qed.

(** C4, amended: for every request whose filter array contains a filter
    with a non-zero protocol code and a subclass code that is absent or 0,
    or with a non-zero subclass code and a class code that is absent or 0,
    [requestDevice] throws a [TypeError] and leaves the whole state as it
    was: no backend call is logged, nothing is cached and nothing is
    authorised. *)
Theorem requestDevice_hierarchy_TypeError (filters : list USBDeviceFilter.t)
    (f : USBDeviceFilter.t) (deviceList : list Device.t) (st : WebUSB) :
  In f filters ->
  breaksHierarchy f = true ->
  exists message,
    requestDevice options createInstance (ArgObject (FiltersArray filters)) deviceList st
    = (Thrown (TypeError message), st).
Proof.
  intros Hin Hbad.
  destruct (checkFilters_breaksHierarchy filters f Hin Hbad) as [message Hm].
  exists message. unfold requestDevice. rewrite Hm. reflexivity.
Qed.

(** C6: for every well-formed request, [requestDevice] throws the
    [NotFoundError] exactly when no device survives filtering, or the
    selection callback resolves to no device, or the selection callback
    fails; and it throws nothing else, so the three cases give one and the
    same error value. *)
Theorem requestDevice_notFound_cases (filters : list USBDeviceFilter.t)
    (deviceList : list Device.t) (st : WebUSB) :
  wellFormed (ArgObject (FiltersArray filters)) = true ->
  (fst (requestDevice options createInstance (ArgObject (FiltersArray filters))
          deviceList st) = Thrown notFoundError
   <-> notFoundCase options (candidates options createInstance filters deviceList st))
  /\ (forall e,
        fst (requestDevice options createInstance (ArgObject (FiltersArray filters))
               deviceList st) = Thrown e ->
        e = notFoundError).
Proof.
  intros Hwf. simpl in Hwf.
  destruct (checkFilters filters) as [e0|] eqn:Hok; [discriminate|]. clear Hwf.
  rewrite (requestDevice_validated filters deviceList st Hok). cbv zeta.
  unfold notFoundCase, selectDevice.
  destruct (candidates options createInstance filters deviceList st) as [|c rest].
  - cbn [fst]. split.
    + split; [intros _; left; reflexivity | reflexivity].
    + intros e [= <-]. reflexivity.
  - destruct (devicesFound options) as [callback|].
    + destruct (callback (c :: rest)) as [d| |] eqn:Hsel; cbn [fst].
      * split.
        -- split; [discriminate|].
           intros [Hnil | [[cb [Hcb Hres]] | [cb [Hcb Hres]]]];
             [discriminate | injection Hcb as <-; congruence
                           | injection Hcb as <-; congruence].
        -- discriminate.
      * split.
        -- split; [|reflexivity].
           intros _. right. left. exists callback. split; [reflexivity | exact Hsel].
        -- intros e [= <-]. reflexivity.
      * split.
        -- split; [|reflexivity].
           intros _. right. right. exists callback. split; [reflexivity | exact Hsel].
        -- intros e [= <-]. reflexivity.
    + cbn [fst]. split.
      * split; [discriminate|].
        intros [Hnil | [[cb [Hcb _]] | [cb [Hcb _]]]]; discriminate.
      * discriminate.
Qed.

Lemma requestDevice_authorised_set (request : RequestArg)
    (deviceList : list Device.t) (st : WebUSB) :
  match requestDevice options createInstance request deviceList st with
  | (Returned selected, st') =>
      authorisedDevices st' = authorisedDevices st ++ [snapshot selected]
  | (Thrown _, st') => authorisedDevices st' = authorisedDevices st
  end.
Proof.
  destruct request as [| |[| |filters]]; try reflexivity.
  destruct (checkFilters filters) as [e|] eqn:Hok.
  - unfold requestDevice. rewrite Hok. reflexivity.
  - rewrite (requestDevice_validated filters deviceList st Hok). cbv zeta.
    pose proof (loadDevices_authorised deviceList (Some filters) st) as Hload.
    destruct (candidates options createInstance filters deviceList st) as [|c rest].
    + exact Hload.
    + destruct (selectDevice options (c :: rest)) as [d| |].
      * cbn [addAuthorised authorisedDevices]. rewrite Hload. reflexivity.
      * exact Hload.
      * exact Hload.
Qed.


(** C10: whenever [requestDevice] throws, be it a [TypeError] or the
    [NotFoundError], the authorised set is what it was before the call; and
    when it returns a device, exactly one snapshot, that of the returned
    device, has been added. *)
Theorem requestDevice_authorises_iff_returns (request : RequestArg)
    (deviceList : list Device.t) (st : WebUSB) :
  match requestDevice options createInstance request deviceList st with
  | (Returned selected, st') =>
      authorisedDevices st' = authorisedDevices st ++ [snapshot selected]
  | (Thrown _, st') => authorisedDevices st' = authorisedDevices st
  end.
Proof.
  exact (requestDevice_authorised_set request deviceList st).
Qed.

End RequestDevice.

(** C4, the rule as stated does not hold: the filter [{protocolCode: 0}]
    has protocolCode set and subclassCode unset, and [requestDevice] does
    not throw a [TypeError] on it: it enumerates the backend and returns
    the first device. *)
Lemma requestDevice_zero_protocol_passes :
  ~ (In (codesFilter None None (Some 0)) [codesFilter None None (Some 0)] ->
     statedBreaksHierarchy (codesFilter None None (Some 0)) = true ->
     exists message,
       requestDevice openOptions plainAdapter
         (ArgObject (FiltersArray [codesFilter None None (Some 0)])) [rawA; rawB] newWebUSB
       = (Thrown (TypeError message), newWebUSB)).
Proof.
  intros H. destruct (H (or_introl eq_refl) eq_refl) as [message Hthrown].
  assert (Hcode : fst (requestDevice openOptions plainAdapter
                         (ArgObject (FiltersArray [codesFilter None None (Some 0)]))
                         [rawA; rawB] newWebUSB) = Returned webA) by reflexivity.
  rewrite Hthrown in Hcode. discriminate Hcode.
Qed.

Example requestDevice_zero_protocol_calls_backend :
  backendCalls (snd (requestDevice openOptions plainAdapter
                       (ArgObject (FiltersArray [codesFilter None None (Some 0)]))
                       [rawA; rawB] newWebUSB))
  = [GetDeviceList; CreateInstance rawA None; CreateInstance rawB None].
Proof. reflexivity. Qed.

Lemma requestDevice_hierarchy_TypeError_witness :
  In (codesFilter None None (Some 1)) [vendorFilter 0x1234; codesFilter None None (Some 1)]
  /\ breaksHierarchy (codesFilter None None (Some 1)) = true
  /\ exists message,
       requestDevice openOptions plainAdapter
         (ArgObject (FiltersArray [vendorFilter 0x1234; codesFilter None None (Some 1)]))
         [rawA; rawB] newWebUSB
       = (Thrown (TypeError message), newWebUSB).
Proof.
  split; [right; left; reflexivity | split; [reflexivity |]].
  apply (requestDevice_hierarchy_TypeError openOptions plainAdapter
           [vendorFilter 0x1234; codesFilter None None (Some 1)]
           (codesFilter None None (Some 1)) [rawA; rawB] newWebUSB).
  - right. left. reflexivity.
  - reflexivity.
Defined.

Lemma requestDevice_notFound_cases_witness :
  wellFormed (ArgObject (FiltersArray [vendorFilter 0x9999])) = true
  /\ (fst (requestDevice openOptions plainAdapter
             (ArgObject (FiltersArray [vendorFilter 0x9999])) [rawA; rawB] newWebUSB)
      = Thrown notFoundError
      <-> notFoundCase openOptions
            (candidates openOptions plainAdapter [vendorFilter 0x9999] [rawA; rawB]
               newWebUSB))
  /\ (forall e,
        fst (requestDevice openOptions plainAdapter
               (ArgObject (FiltersArray [vendorFilter 0x9999])) [rawA; rawB] newWebUSB)
        = Thrown e ->
        e = notFoundError).
Proof.
  split; [reflexivity |].
  apply (requestDevice_notFound_cases openOptions plainAdapter [vendorFilter 0x9999]
           [rawA; rawB] newWebUSB).
  reflexivity.
Defined.

(** The specification's scenarios on the two-device bus: the request for
    vendor 0x1234 returns the first device, the one for vendor 0x9999 is
    answered with the [NotFoundError]. *)
Example requestDevice_scenarios :
  fst (requestDevice openOptions plainAdapter
         (ArgObject (FiltersArray [vendorFilter 0x1234])) [rawA; rawB] newWebUSB)
  = Returned webA
  /\ fst (requestDevice openOptions plainAdapter
            (ArgObject (FiltersArray [vendorFilter 0x9999])) [rawA; rawB] newWebUSB)
     = Thrown notFoundError.
Proof. split; reflexivity. Qed.

Lemma requestDevice_dropFalsy (options : USBOptions)
    (createInstance : Device.t -> option bool -> option USBDevice.t)
    (filters : list USBDeviceFilter.t) (deviceList : list Device.t) (st : WebUSB) :
  requestDevice options createInstance (ArgObject (FiltersArray (map dropFalsy filters)))
    deviceList st
  = requestDevice options createInstance (ArgObject (FiltersArray filters)) deviceList st.
Proof.
  unfold requestDevice. rewrite checkFilters_dropFalsy.
  destruct (checkFilters filters); [reflexivity|].
  unfold loadDevices. rewrite quickFilter_dropFalsy.
  destruct (adaptAll options createInstance (quickFilter deviceList (Some filters)) []
              (logCall GetDeviceList st)) as [refreshed st1].
  rewrite (filter_ext _ _ (fun d => filterDevice_dropFalsy d filters)).
  reflexivity.
Qed.

(** C9: a falsy filter member (a numeric member equal to 0, an empty
    serial number) is treated as an absent one: replacing every falsy member
    by an absent one changes neither what [quickFilter] keeps, nor what
    [filterDevice] answers, nor anything [requestDevice] does; and a filter
    with protocolCode 0 and no subclassCode, or with subclassCode 0 and no
    classCode, passes the hierarchy check of [requestDevice]. *)
Theorem falsy_members_are_unspecified :
  (forall devices filters,
     quickFilter devices (Some (map dropFalsy filters)) = quickFilter devices (Some filters))
  /\ (forall device filters,
        filterDevice device (Some (map dropFalsy filters))
        = filterDevice device (Some filters))
  /\ (forall options createInstance filters deviceList st,
        requestDevice options createInstance
          (ArgObject (FiltersArray (map dropFalsy filters))) deviceList st
        = requestDevice options createInstance (ArgObject (FiltersArray filters))
            deviceList st)
  /\ (forall v p c serial,
        checkFilter (USBDeviceFilter.mk v p c None (Some 0) serial) = None)
  /\ (forall v p serial,
        checkFilter (USBDeviceFilter.mk v p None (Some 0) None serial) = None
        /\ checkFilter (USBDeviceFilter.mk v p None (Some 0) (Some 0) serial) = None).
Proof.
  split; [exact quickFilter_dropFalsy |].
  split; [exact filterDevice_dropFalsy |].
  split; [exact requestDevice_dropFalsy |].
  split; [reflexivity | split; reflexivity].
Qed.

(** ** EventBridge *)

Lemma removeLast_length (l : Listener) (ls ls' : list Listener) :
  removeLast l ls = Some ls' -> List.length ls = S (List.length ls').
Proof.
  revert ls'. induction ls as [|x rest IH]; intros ls' H; simpl in H.
  - discriminate.
  - destruct (removeLast l rest) as [rest'|].
    + injection H as <-. simpl. rewrite (IH rest' eq_refl). reflexivity.
    + destruct (Nat.eqb x l); [|discriminate].
      injection H as <-. reflexivity.
Qed.

Lemma listenerCount_add (c : Channel) (l : Listener) (st : WebUSB) :
  listenerCount (addEventListener c l st) c = S (listenerCount st c).
Proof.
  unfold addEventListener, onNewListener, listenerCount.
  destruct c; destruct (Nat.eqb _ 0); cbn; rewrite length_app; cbn; lia.
Qed.

Lemma addEventListener_calls (c : Channel) (l : Listener) (st : WebUSB) :
  backendCalls (addEventListener c l st)
  = backendCalls st
    ++ (if Nat.eqb (listenerCount st c) 0 then [UsbAddListener (rawEvent c)] else []).
Proof.
  unfold addEventListener, onNewListener.
  destruct (Nat.eqb (listenerCount st c) 0); cbn.
  - reflexivity.
  - rewrite app_nil_r. reflexivity.
Qed.

Lemma removeEventListener_calls (c : Channel) (l : Listener) (st : WebUSB) :
  backendCalls (removeEventListener c l st)
  = backendCalls st
    ++ (if negb (Nat.eqb (listenerCount st c) 0)
           && Nat.eqb (listenerCount (removeEventListener c l st) c) 0
        then [UsbRemoveListener (rawEvent c)] else []).
Proof.
  unfold removeEventListener.
  destruct (removeLast l (listeners st c)) as [ls|] eqn:Hrm.
  - apply removeLast_length in Hrm.
    assert (Hafter : listenerCount (setListeners c ls st) c = List.length ls)
      by (destruct c; reflexivity).
    unfold onRemoveListener. rewrite Hafter.
    unfold listenerCount at 1. rewrite Hrm. cbn [Nat.eqb negb andb].
    destruct (Nat.eqb (List.length ls) 0) eqn:Hz.
    + assert (Hcount : listenerCount (usbRemoveListener (rawEvent c) (setListeners c ls st)) c
                       = List.length ls) by (destruct c; reflexivity).
      rewrite Hcount, Hz. destruct c; reflexivity.
    + rewrite Hafter, Hz. destruct c; cbn; rewrite app_nil_r; reflexivity.
  - destruct (Nat.eqb (listenerCount st c) 0); cbn; rewrite app_nil_r; reflexivity.
Qed.

Lemma addEventListener_bridged (c : Channel) (l : Listener) (st : WebUSB) :
  bridged st -> bridged (addEventListener c l st).
Proof.
  unfold bridged. intros [Ha Hd].
  unfold addEventListener, onNewListener, listenerCount in *.
  destruct c; cbn in *.
  - destruct (connectListeners st) as [|x rest] eqn:E; cbn in *; rewrite ?E.
    + rewrite Ha. split; [reflexivity | exact Hd].
    + rewrite length_app. cbn. split; [exact Ha | exact Hd].
  - destruct (disconnectListeners st) as [|x rest] eqn:E; cbn in *; rewrite ?E.
    + rewrite Hd. split; [exact Ha | reflexivity].
    + rewrite length_app. cbn. split; [exact Ha | exact Hd].
Qed.

Lemma removeEventListener_bridged (c : Channel) (l : Listener) (st : WebUSB) :
  bridged st -> bridged (removeEventListener c l st).
Proof.
  unfold bridged. intros [Ha Hd].
  unfold removeEventListener.
  destruct (removeLast l (listeners st c)) as [ls|] eqn:Hrm; [|split; assumption].
  apply removeLast_length in Hrm.
  unfold onRemoveListener, listenerCount in *.
  destruct c; cbn in *; rewrite Hrm in *; cbn in *.
  - destruct ls as [|x rest]; cbn in *.
    + rewrite Ha. split; [reflexivity | exact Hd].
    + split; [exact Ha | exact Hd].
  - destruct ls as [|x rest]; cbn in *.
    + rewrite Hd. split; [exact Ha | reflexivity].
    + split; [exact Ha | exact Hd].
Qed.

Lemma runOps_bridged (ops : list ListenerOp) (st : WebUSB) :
  bridged st -> bridged (runOps ops st).
Proof.
  revert st. induction ops as [|op rest IH]; intros st H.
  - exact H.
  - cbn. apply IH. destruct op as [c l | c l]; cbn.
    + apply addEventListener_bridged, H.
    + apply removeEventListener_bridged, H.
Qed.

(** C5: after every sequence of [addEventListener] / [removeEventListener]
    calls on a fresh instance, the attach callback is registered on the
    backend once if the connect channel has a listener and not at all
    otherwise; adding a connect listener then makes exactly one
    [usb.addListener('attach')] call if the channel had no listener and no
    backend call if it had one; and removing a connect listener makes
    exactly one [usb.removeListener('attach')] call if that brings the count
    from positive to zero and no backend call otherwise. *)
Theorem connect_subscription_follows_listener_count (ops : list ListenerOp) :
  let st := runOps ops newWebUSB in
  attachCallbacks st = (if Nat.eqb (listenerCount st connect) 0 then 0 else 1)%nat
  /\ (forall l,
        backendCalls (addEventListener connect l st)
        = backendCalls st
          ++ (if Nat.eqb (listenerCount st connect) 0 then [UsbAddListener attach] else []))
  /\ (forall l,
        backendCalls (removeEventListener connect l st)
        = backendCalls st
          ++ (if negb (Nat.eqb (listenerCount st connect) 0)
                 && Nat.eqb (listenerCount (removeEventListener connect l st) connect) 0
              then [UsbRemoveListener attach] else [])).
Proof.
  intros st. split; [|split].
  - assert (Hinit : bridged newWebUSB) by (split; reflexivity).
    exact (proj1 (runOps_bridged ops newWebUSB Hinit)).
  - intros l. exact (addEventListener_calls connect l st).
  - intros l. exact (removeEventListener_calls connect l st).
Qed.

(** Three connect listeners added, then all three removed: one
    subscription, one unsubscription. *)
Example connect_three_listeners :
  backendCalls
    (runOps [AddListener connect 1%nat; AddListener connect 2%nat; AddListener connect 1%nat;
             RemoveListener connect 1%nat; RemoveListener connect 7%nat;
             RemoveListener connect 2%nat; RemoveListener connect 1%nat] newWebUSB)
  = [UsbAddListener attach; UsbRemoveListener attach].
Proof. reflexivity. Qed.

(** ** DeviceAdapterCache *)

Lemma Device_eqb_eq (a b : Device.t) : Device.eqb a b = true <-> a = b.
Proof.
  unfold Device.eqb. destruct a as [ha va pa], b as [hb vb pb]. cbn.
  rewrite !andb_true_iff, Nat.eqb_eq, !Z.eqb_eq.
  split.
  - intros [[-> ->] ->]. reflexivity.
  - intros [= -> -> ->]. repeat split.
Qed.

Lemma Device_eqb_refl (a : Device.t) : Device.eqb a a = true.
Proof. apply Device_eqb_eq. reflexivity. Qed.

Lemma Device_eqb_neq (a b : Device.t) : a <> b -> Device.eqb a b = false.
Proof.
  intros H. destruct (Device.eqb a b) eqn:E; [|reflexivity].
  apply Device_eqb_eq in E. contradiction.
Qed.

Lemma Device_eq_dec (a b : Device.t) : a = b \/ a <> b.
Proof.
  destruct (Device.eqb a b) eqn:E.
  - left. apply Device_eqb_eq, E.
  - right. intros ->. rewrite Device_eqb_refl in E. discriminate.
Qed.

Lemma map_get_set_same (m : DeviceMap) (k : Device.t) (v : USBDevice.t) :
  map_get (map_set m k v) k = Some v.
Proof.
  induction m as [|[k' v'] rest IH]; cbn.
  - rewrite Device_eqb_refl. reflexivity.
  - destruct (Device.eqb k' k) eqn:E; cbn; rewrite E; [reflexivity | exact IH].
Qed.

Lemma map_get_set_other (m : DeviceMap) (k k' : Device.t) (v : USBDevice.t) :
  k <> k' -> map_get (map_set m k v) k' = map_get m k'.
Proof.
  intros Hne. induction m as [|[k0 v0] rest IH]; cbn.
  - rewrite (Device_eqb_neq k k' Hne). reflexivity.
  - destruct (Device.eqb k0 k) eqn:E; cbn.
    + apply Device_eqb_eq in E. subst k0.
      rewrite (Device_eqb_neq k k' Hne). reflexivity.
    + destruct (Device.eqb k0 k'); [reflexivity | exact IH].
Qed.

Lemma map_set_keys (m : DeviceMap) (k : Device.t) (v : USBDevice.t) :
  map fst (map_set m k v) = if map_has m k then map fst m else map fst m ++ [k].
Proof.
  unfold map_has. induction m as [|[k' v'] rest IH]; cbn.
  - reflexivity.
  - destruct (Device.eqb k' k) eqn:E; cbn.
    + reflexivity.
    + rewrite IH. destruct (map_get rest k); reflexivity.
Qed.

Lemma map_get_In (m : DeviceMap) (k : Device.t) (v : USBDevice.t) :
  map_get m k = Some v -> In (k, v) m.
Proof.
  induction m as [|[k' v'] rest IH]; cbn; [discriminate|].
  destruct (Device.eqb k' k) eqn:E.
  - apply Device_eqb_eq in E. intros [= ->]. left. congruence.
  - intros H. right. exact (IH H).
Qed.

Lemma map_get_None_keys (m : DeviceMap) (k : Device.t) :
  map_get m k = None -> ~ In k (map fst m).
Proof.
  induction m as [|[k' v'] rest IH]; cbn; [tauto|].
  destruct (Device.eqb k' k) eqn:E; [discriminate|].
  intros H [-> | Hin].
  - rewrite Device_eqb_refl in E. discriminate.
  - exact (IH H Hin).
Qed.

Lemma map_set_NoDup (m : DeviceMap) (k : Device.t) (v : USBDevice.t) :
  NoDup (map fst m) -> NoDup (map fst (map_set m k v)).
Proof.
  intros H. rewrite map_set_keys. unfold map_has.
  destruct (map_get m k) eqn:E; [exact H|].
  apply NoDup_app; [exact H | repeat constructor; intros [] |].
  intros x Hx [Heq | []]. subst x. exact (map_get_None_keys m k E Hx).
Qed.

Lemma In_map_get (m : DeviceMap) (k : Device.t) (v : USBDevice.t) :
  NoDup (map fst m) -> In (k, v) m -> map_get m k = Some v.
Proof.
  induction m as [|[k' v'] rest IH]; cbn; [tauto|].
  intros Hnd [Heq | Hin].
  - injection Heq as -> ->. rewrite Device_eqb_refl. reflexivity.
  - inversion Hnd as [|? ? Hnotin Hrest]; subst.
    destruct (Device.eqb k' k) eqn:E.
    + apply Device_eqb_eq in E. subst k'.
      exfalso. apply Hnotin. apply (in_map fst) in Hin. exact Hin.
    + exact (IH Hrest Hin).
Qed.

Lemma map_values_In (m : DeviceMap) (w : USBDevice.t) :
  NoDup (map fst m) ->
  (In w (map_values m) <-> exists k, map_get m k = Some w).
Proof.
  intros Hnd. unfold map_values. rewrite in_map_iff. split.
  - intros [[k v] [Hv Hin]]. cbn in Hv. subst v.
    exists k. exact (In_map_get m k w Hnd Hin).
  - intros [k Hk]. exists (k, w). split; [reflexivity | exact (map_get_In m k w Hk)].
Qed.

Section Cache.

Variable options : USBOptions.
Variable createInstance : Device.t -> option bool -> option USBDevice.t.

Lemma getWebDevice_known (device : Device.t) (st : WebUSB) :
  knownDevices (snd (getWebDevice options createInstance device st))
  = match map_get (knownDevices st) device with
    | Some _ => knownDevices st
    | None =>
        match createInstance device (autoDetachKernelDriver options) with
        | Some w => map_set (knownDevices st) device w
        | None => knownDevices st
        end
    end.
Proof.
  unfold getWebDevice, map_has.
  destruct (map_get (knownDevices st) device) as [w0|]; [reflexivity|].
  destruct (createInstance device (autoDetachKernelDriver options)) as [w|];
    destruct (deviceTimeout options) as [ms|]; try destruct (ms =? 0); reflexivity.
Qed.

Lemma getWebDevice_fst (device : Device.t) (st : WebUSB) :
  fst (getWebDevice options createInstance device st)
  = adapted options createInstance (knownDevices st) device.
Proof.
  unfold getWebDevice, adapted, map_has.
  destruct (map_get (knownDevices st) device) as [w0|] eqn:Hget; [reflexivity|].
  destruct (createInstance device (autoDetachKernelDriver options)) as [w|]; cbn.
  - destruct (deviceTimeout options) as [ms|]; try destruct (ms =? 0);
      cbn; apply map_get_set_same.
  - destruct (deviceTimeout options) as [ms|]; try destruct (ms =? 0);
      cbn; exact Hget.
Qed.

(** Adapting one device does not change what any device adapts to. *)
Lemma getWebDevice_adapted_stable (device k : Device.t) (st : WebUSB) :
  adapted options createInstance
    (knownDevices (snd (getWebDevice options createInstance device st))) k
  = adapted options createInstance (knownDevices st) k.
Proof.
  rewrite getWebDevice_known.
  destruct (map_get (knownDevices st) device) as [w0|] eqn:Hget; [reflexivity|].
  destruct (createInstance device (autoDetachKernelDriver options)) as [w|] eqn:Hnew;
    [|reflexivity].
  unfold adapted. destruct (Device_eq_dec device k) as [<- | Hne].
  - rewrite map_get_set_same, Hget, Hnew. reflexivity.
  - rewrite (map_get_set_other _ device k w Hne). reflexivity.
Qed.

Lemma adaptAll_NoDup (devices : list Device.t) (refreshed : DeviceMap) (st : WebUSB) :
  NoDup (map fst refreshed) ->
  NoDup (map fst (fst (adaptAll options createInstance devices refreshed st))).
Proof.
  revert refreshed st. induction devices as [|device rest IH]; intros refreshed st Hnd.
  - exact Hnd.
  - cbn. destruct (getWebDevice options createInstance device st) as [[w|] st1].
    + apply IH, map_set_NoDup, Hnd.
    + apply IH, Hnd.
Qed.

(** What the refreshed map holds for a key once the loop is over. *)
Lemma adaptAll_get (devices : list Device.t) (refreshed : DeviceMap) (st : WebUSB)
    (k : Device.t) :
  map_get (fst (adaptAll options createInstance devices refreshed st)) k
  = if existsb (Device.eqb k) devices
    then match adapted options createInstance (knownDevices st) k with
         | Some w => Some w
         | None => map_get refreshed k
         end
    else map_get refreshed k.
Proof.
  revert refreshed st. induction devices as [|device rest IH]; intros refreshed st.
  - reflexivity.
  - cbn [adaptAll existsb].
    pose proof (getWebDevice_fst device st) as Hfst.
    pose proof (getWebDevice_adapted_stable device k st) as Hstable.
    destruct (getWebDevice options createInstance device st) as [webDevice st1].
    cbn [fst snd] in Hfst, Hstable. subst webDevice.
    destruct (Device_eq_dec k device) as [-> | Hne].
    + rewrite Device_eqb_refl. cbn [orb].
      destruct (adapted options createInstance (knownDevices st) device) as [w|] eqn:Had.
      * rewrite IH, Hstable, map_get_set_same.
        destruct (existsb (Device.eqb device) rest); reflexivity.
      * rewrite IH, Hstable.
        destruct (existsb (Device.eqb device) rest); reflexivity.
    + rewrite (Device_eqb_neq k device Hne). cbn [orb].
      destruct (adapted options createInstance (knownDevices st) device) as [w|] eqn:Had.
      * rewrite IH, Hstable.
        rewrite (map_get_set_other refreshed device k w (fun E => Hne (eq_sym E))).
        reflexivity.
      * rewrite IH, Hstable. reflexivity.
Qed.

(** The devices [loadDevices] returns are those the surviving raw devices
    adapt to. *)
Lemma loadDevices_In (deviceList : list Device.t)
    (preFilters : option (list USBDeviceFilter.t)) (st : WebUSB) (w : USBDevice.t) :
  In w (fst (loadDevices options createInstance deviceList preFilters st))
  <-> exists raw, In raw (quickFilter deviceList preFilters)
                  /\ adapted options createInstance (knownDevices st) raw = Some w.
Proof.
  unfold loadDevices.
  pose proof (adaptAll_NoDup (quickFilter deviceList preFilters) []
                (logCall GetDeviceList st) (NoDup_nil _)) as Hnd.
  pose proof (adaptAll_get (quickFilter deviceList preFilters) []
                (logCall GetDeviceList st)) as Hget.
  destruct (adaptAll options createInstance (quickFilter deviceList preFilters) []
              (logCall GetDeviceList st)) as [refreshed st1].
  cbn [fst snd knownDevices setKnownDevices logCall] in *.
  rewrite (map_values_In refreshed w Hnd).
  split.
  - intros [k Hk]. rewrite Hget in Hk.
    destruct (existsb (Device.eqb k) (quickFilter deviceList preFilters)) eqn:Hex;
      [|discriminate].
    apply existsb_exists in Hex. destruct Hex as [raw [Hin Heq]].
    apply Device_eqb_eq in Heq. subst raw.
    exists k. split; [exact Hin|].
    destruct (adapted options createInstance (knownDevices st) k); [exact Hk | discriminate].
  - intros [raw [Hin Had]]. exists raw. rewrite Hget.
    assert (Hex : existsb (Device.eqb raw) (quickFilter deviceList preFilters) = true).
    { apply existsb_exists. exists raw. split; [exact Hin | apply Device_eqb_refl]. }
    rewrite Hex, Had. reflexivity.
Qed.

(** C7: when [allowAllDevices] is true, whatever [allowedDevices] and the
    authorised set hold, [getDevices] returns exactly the devices that the
    raw devices enumerated by the backend adapt to: every enumerated raw
    device for which [getWebDevice] yields a device (cached or newly
    created) contributes that device, and nothing else is returned. *)
Theorem getDevices_allowAll (deviceList : list Device.t) (st : WebUSB) (w : USBDevice.t) :
  allowAllDevices options = true ->
  (In w (fst (getDevices options createInstance deviceList st))
   <-> exists raw, In raw deviceList
                   /\ fst (getWebDevice options createInstance raw st) = Some w).
Proof.
  intros Hall. unfold getDevices. rewrite Hall.
  pose proof (loadDevices_In deviceList None st w) as Hload.
  destruct (loadDevices options createInstance deviceList None st) as [devices st1].
  cbn [fst] in *. rewrite filter_In.
  unfold isAuthorisedDevice. rewrite Hall.
  rewrite Hload. cbn [quickFilter].
  split.
  - intros [[raw [Hin Had]] _]. exists raw. rewrite getWebDevice_fst. tauto.
  - intros [raw [Hin Had]]. rewrite getWebDevice_fst in Had.
    split; [exists raw; tauto | reflexivity].
Qed.

End Cache.

Lemma getDevices_allowAll_witness :
  allowAllDevices openOptions = true
  /\ (In webB (fst (getDevices openOptions plainAdapter [rawA; rawB] newWebUSB))
      <-> exists raw, In raw [rawA; rawB]
                      /\ fst (getWebDevice openOptions plainAdapter raw newWebUSB)
                         = Some webB).
Proof.
  split; [reflexivity |].
  apply (getDevices_allowAll openOptions plainAdapter [rawA; rawB] newWebUSB webB).
  reflexivity.
Defined.

(** ** Where cache entries come from *)

Section CacheOrigin.

Variable options : USBOptions.
Variable createInstance : Device.t -> option bool -> option USBDevice.t.

Lemma getWebDevice_cacheFromAdapter (device : Device.t) (st : WebUSB) :
  cacheFromAdapter options createInstance st ->
  cacheFromAdapter options createInstance
    (snd (getWebDevice options createInstance device st)).
Proof.
  unfold cacheFromAdapter. intros Hinv k w. rewrite getWebDevice_known.
  destruct (map_get (knownDevices st) device) as [w0|] eqn:Hget; [apply Hinv|].
  destruct (createInstance device (autoDetachKernelDriver options)) as [w1|] eqn:Hnew;
    [|apply Hinv].
  destruct (Device_eq_dec device k) as [<- | Hne].
  - rewrite map_get_set_same. intros [= <-]. exact Hnew.
  - rewrite (map_get_set_other _ device k w1 Hne). apply Hinv.
Qed.

Lemma loadDevices_cacheFromAdapter (deviceList : list Device.t)
    (preFilters : option (list USBDeviceFilter.t)) (st : WebUSB) :
  cacheFromAdapter options createInstance st ->
  cacheFromAdapter options createInstance
    (snd (loadDevices options createInstance deviceList preFilters st)).
Proof.
  unfold cacheFromAdapter, loadDevices. intros Hinv k w.
  pose proof (adaptAll_get options createInstance (quickFilter deviceList preFilters) []
                (logCall GetDeviceList st) k) as Hget.
  destruct (adaptAll options createInstance (quickFilter deviceList preFilters) []
              (logCall GetDeviceList st)) as [refreshed st1].
  cbn [fst snd knownDevices setKnownDevices logCall map_get] in *.
  rewrite Hget.
  destruct (existsb (Device.eqb k) (quickFilter deviceList preFilters)); [|discriminate].
  unfold adapted.
  destruct (map_get (knownDevices st) k) as [w0|] eqn:Hold.
  - intros [= <-]. exact (Hinv k w0 Hold).
  - destruct (createInstance k (autoDetachKernelDriver options)); [tauto | discriminate].
Qed.

Lemma requestDevice_known (request : RequestArg) (deviceList : list Device.t)
    (st : WebUSB) :
  knownDevices (snd (requestDevice options createInstance request deviceList st))
  = knownDevices st
  \/ exists filters,
       knownDevices (snd (requestDevice options createInstance request deviceList st))
       = knownDevices (snd (loadDevices options createInstance deviceList
                              (Some filters) st)).
Proof.
  destruct request as [| |[| |filters]]; try (left; reflexivity).
  destruct (checkFilters filters) as [e|] eqn:Hok.
  - left. unfold requestDevice. rewrite Hok. reflexivity.
  - right. exists filters.
    rewrite (requestDevice_validated options createInstance filters deviceList st Hok).
    cbv zeta.
    destruct (candidates options createInstance filters deviceList st) as [|c rest];
      [reflexivity|].
    destruct (selectDevice options (c :: rest)); reflexivity.
Qed.

Lemma applyOp_known (op : ListenerOp) (st : WebUSB) :
  knownDevices (applyOp op st) = knownDevices st.
Proof.
  destruct op as [c l | c l]; cbn.
  - unfold addEventListener, onNewListener.
    destruct (Nat.eqb (listenerCount st c) 0); reflexivity.
  - unfold removeEventListener.
    destruct (removeLast l (listeners st c)) as [ls|]; [|reflexivity].
    unfold onRemoveListener.
    destruct (Nat.eqb (listenerCount (setListeners c ls st) c) 0); reflexivity.
Qed.

Lemma deviceDisconnectCallback_known (device : Device.t) (st : WebUSB) :
  knownDevices (deviceDisconnectCallback options device st) = knownDevices st.
Proof.
  unfold deviceDisconnectCallback.
  destruct (map_has (knownDevices st) device); [|reflexivity].
  destruct (map_get (knownDevices st) device) as [w|]; [|reflexivity].
  destruct (isAuthorisedDevice options st w); reflexivity.
Qed.

Lemma applyCall_cacheFromAdapter (call : FacadeCall) (st : WebUSB) :
  cacheFromAdapter options createInstance st ->
  cacheFromAdapter options createInstance (applyCall options createInstance call st).
Proof.
  intros Hinv. destruct call as [request deviceList | deviceList | device | device | op];
    cbn [applyCall].
  - destruct (requestDevice_known request deviceList st) as [Heq | [filters Heq]];
      unfold cacheFromAdapter; rewrite Heq; [exact Hinv|].
    apply loadDevices_cacheFromAdapter, Hinv.
  - unfold getDevices.
    pose proof (loadDevices_cacheFromAdapter deviceList
                  (if allowAllDevices options then None else allowedDevices options)
                  st Hinv) as Hload.
    destruct (loadDevices options createInstance deviceList
                (if allowAllDevices options then None else allowedDevices options) st)
      as [devices st1].
    exact Hload.
  - destruct (Nat.eqb (attachCallbacks st) 0); [exact Hinv|].
    unfold deviceConnectCallback.
    pose proof (getWebDevice_cacheFromAdapter device st Hinv) as Hget.
    destruct (getWebDevice options createInstance device st) as [[w|] st1];
      [|exact Hget].
    destruct (isAuthorisedDevice options st1 w); exact Hget.
  - destruct (Nat.eqb (detachCallbacks st) 0); [exact Hinv|].
    unfold cacheFromAdapter. rewrite deviceDisconnectCallback_known. exact Hinv.
  - unfold cacheFromAdapter. rewrite applyOp_known. exact Hinv.
Qed.

(** Whatever has happened to an instance, its cache holds only devices
    the adapter created. *)
Lemma runCalls_cacheFromAdapter (calls : list FacadeCall) (st : WebUSB) :
  cacheFromAdapter options createInstance st ->
  cacheFromAdapter options createInstance (runCalls options createInstance calls st).
Proof.
  revert st. induction calls as [|call rest IH]; intros st Hinv.
  - exact Hinv.
  - cbn. apply IH, applyCall_cacheFromAdapter, Hinv.
Qed.

Lemma newWebUSB_cacheFromAdapter : cacheFromAdapter options createInstance newWebUSB.
Proof. intros k w H. discriminate H. Qed.

End CacheOrigin.

(** ** Disconnect notifications *)

(** C2, the handler as stated does not hold: with the first device cached
    and every device authorised, the detach handler emits the disconnect
    event and the device's entry is still in [knownDevices] afterwards. *)
Lemma deviceDisconnectCallback_keeps_entry :
  ~ (map_get (knownDevices cachedA) rawA = Some webA ->
     isAuthorisedDevice openOptions cachedA webA = true ->
     emitted (deviceDisconnectCallback openOptions rawA cachedA)
     = emitted cachedA ++ [{| type := disconnect; device := webA |}]
     /\ map_has (knownDevices (deviceDisconnectCallback openOptions rawA cachedA)) rawA
        = false).
Proof.
  intros H. destruct (H eq_refl eq_refl) as [_ Hgone].
  cbv in Hgone. discriminate.
Qed.

(** C2, amended: for every raw detach event whose device is present in
    [knownDevices] and whose cached adapted device is authorised, the
    handler emits one disconnect event carrying that cached device and
    leaves [knownDevices] as it was (the entry goes away with the next
    [loadDevices]); for a raw device that is not in [knownDevices] the
    handler does nothing at all; and after any history of the instance a
    raw device that the adapter cannot adapt is not in [knownDevices], so
    the handler does nothing for it. *)
Theorem deviceDisconnectCallback_emits_cached (options : USBOptions) (raw : Device.t)
    (st : WebUSB) :
  (forall w,
     map_get (knownDevices st) raw = Some w ->
     isAuthorisedDevice options st w = true ->
     emitted (deviceDisconnectCallback options raw st)
     = emitted st ++ [{| type := disconnect; device := w |}]
     /\ knownDevices (deviceDisconnectCallback options raw st) = knownDevices st)
  /\ (map_get (knownDevices st) raw = None ->
      deviceDisconnectCallback options raw st = st)
  /\ (forall createInstance calls,
        createInstance raw (autoDetachKernelDriver options) = None ->
        deviceDisconnectCallback options raw
          (runCalls options createInstance calls newWebUSB)
        = runCalls options createInstance calls newWebUSB).
Proof.
  assert (Habsent : forall s, map_get (knownDevices s) raw = None ->
                              deviceDisconnectCallback options raw s = s).
  { intros s Hget. unfold deviceDisconnectCallback, map_has. rewrite Hget. reflexivity. }
  split; [|split].
  - intros w Hget Hauth. unfold deviceDisconnectCallback, map_has.
    rewrite Hget, Hauth. split; reflexivity.
  - apply Habsent.
  - intros createInstance calls Hfail. apply Habsent.
    pose proof (runCalls_cacheFromAdapter options createInstance calls newWebUSB
                  (newWebUSB_cacheFromAdapter options createInstance)) as Hinv.
    destruct (map_get (knownDevices (runCalls options createInstance calls newWebUSB)) raw)
      as [w|] eqn:Hget; [|reflexivity].
    rewrite (Hinv raw w Hget) in Hfail. discriminate Hfail.
Qed.

Lemma deviceDisconnectCallback_emits_cached_witness :
  map_get (knownDevices cachedA) rawA = Some webA
  /\ isAuthorisedDevice openOptions cachedA webA = true
  /\ map_get (knownDevices cachedA) rawB = None
  /\ brokenAdapter rawB (autoDetachKernelDriver openOptions) = None
  /\ emitted (deviceDisconnectCallback openOptions rawA cachedA)
     = emitted cachedA ++ [{| type := disconnect; device := webA |}]
  /\ knownDevices (deviceDisconnectCallback openOptions rawA cachedA) = knownDevices cachedA
  /\ deviceDisconnectCallback openOptions rawB cachedA = cachedA
  /\ deviceDisconnectCallback openOptions rawB
       (runCalls openOptions brokenAdapter busHistory newWebUSB)
     = runCalls openOptions brokenAdapter busHistory newWebUSB.
Proof.
  split; [reflexivity | split; [reflexivity | split; [reflexivity | split; [reflexivity |]]]].
  pose proof (proj1 (deviceDisconnectCallback_emits_cached openOptions rawA cachedA)
                webA eq_refl eq_refl) as Hemit.
  pose proof (proj1 (proj2 (deviceDisconnectCallback_emits_cached openOptions rawB cachedA))
                eq_refl) as Hnone.
  pose proof (proj2 (proj2 (deviceDisconnectCallback_emits_cached openOptions rawB cachedA))
                brokenAdapter busHistory eq_refl) as Hnever.
  split; [exact (proj1 Hemit) | split; [exact (proj2 Hemit) | split; [exact Hnone |]]].
  exact Hnever.
Defined.

(** The same history, observed: the second device cannot be adapted, is
    never cached and its detach emits nothing, while the first device's
    attach and detach are both announced. *)
Example busHistory_emitted :
  emitted (runCalls openOptions brokenAdapter (busHistory ++ [RawDetach rawB; RawDetach rawA])
             newWebUSB)
  = [{| type := connect; device := webA |}; {| type := disconnect; device := webA |}].
Proof. reflexivity. Qed.

(** ** Ad-hoc authorisation and getDevices *)

Lemma strictEqStr_refl (s : option string) : strictEqStr s s = true.
Proof. destruct s as [x|]; [apply String.eqb_refl | reflexivity]. Qed.

Lemma authorisedMatches_snapshot (device : USBDevice.t) :
  authorisedMatches device (snapshot device) = true.
Proof.
  unfold authorisedMatches, snapshot, strictEqNum. cbn.
  rewrite !Z.eqb_refl, strictEqStr_refl. reflexivity.
Qed.

Lemma isAuthorisedDevice_same_set (options : USBOptions) (st st' : WebUSB)
    (device : USBDevice.t) :
  authorisedDevices st = authorisedDevices st' ->
  isAuthorisedDevice options st device = isAuthorisedDevice options st' device.
Proof.
  unfold isAuthorisedDevice. intros ->. reflexivity.
Qed.

(** Where the ad-hoc grant does carry over: a device returned by
    [requestDevice] is returned by a later [getDevices] when the raw device
    it is cached for is still enumerated and passes the [quickFilter] that
    [getDevices] applies. *)
Lemma getDevices_includes_requested (options : USBOptions)
    (createInstance : Device.t -> option bool -> option USBDevice.t)
    (request : RequestArg) (deviceList deviceList' : list Device.t)
    (st st1 : WebUSB) (selected : USBDevice.t) (raw : Device.t) :
  requestDevice options createInstance request deviceList st = (Returned selected, st1) ->
  map_get (knownDevices st1) raw = Some selected ->
  In raw (quickFilter deviceList'
            (if allowAllDevices options then None else allowedDevices options)) ->
  In selected (fst (getDevices options createInstance deviceList' st1)).
Proof.
  intros Hreq Hcached Hkept.
  pose proof (requestDevice_authorised_set options createInstance request deviceList st)
    as Hset.
  rewrite Hreq in Hset.
  unfold getDevices.
  set (preFilters := if allowAllDevices options then None else allowedDevices options) in *.
  pose proof (loadDevices_In options createInstance deviceList' preFilters st1 selected)
    as Hload.
  pose proof (loadDevices_authorised options createInstance deviceList' preFilters st1)
    as Hauth.
  destruct (loadDevices options createInstance deviceList' preFilters st1)
    as [devices st2].
  cbn [fst snd] in *. apply filter_In. split.
  - apply Hload. exists raw. split; [exact Hkept|].
    unfold adapted. rewrite Hcached. reflexivity.
  - rewrite (isAuthorisedDevice_same_set options st2 st1 selected Hauth).
    unfold isAuthorisedDevice. rewrite Hset.
    destruct (allowAllDevices options); [reflexivity|].
    destruct (match allowedDevices options with
              | Some fs => filterDevice selected (Some fs)
              | None => false
              end); [reflexivity|].
    rewrite existsb_app. cbn. rewrite authorisedMatches_snapshot.
    rewrite orb_true_r. reflexivity.
Qed.

(** C1, evaluated on the two-device bus with
    [allowedDevices = [{vendorId: 0x1111}]] and [allowAllDevices] false:
    [requestDevice({filters: [{vendorId: 0x1234}]})] returns the first
    device, which matches no [allowedDevices] filter; its raw device is
    still enumerated and the device is authorised; yet the following
    [getDevices()] returns only the second device, because the
    [quickFilter] on [allowedDevices] drops the first raw device before the
    authorisation check is reached. *)
Theorem getDevices_omits_requested_device :
  let request := ArgObject (FiltersArray [vendorFilter 0x1234]) in
  let completion := requestDevice staticOptions plainAdapter request [rawA; rawB] newWebUSB in
  fst completion = Returned webA
  /\ filterDevice webA (allowedDevices staticOptions) = false
  /\ map_get (knownDevices (snd completion)) rawA = Some webA
  /\ isAuthorisedDevice staticOptions (snd completion) webA = true
  /\ fst (getDevices staticOptions plainAdapter [rawA; rawB] (snd completion)) = [webB]
  /\ ~ In webA (fst (getDevices staticOptions plainAdapter [rawA; rawB] (snd completion))).
Proof.
  cbv zeta.
  split; [reflexivity|]. split; [reflexivity|]. split; [reflexivity|].
  split; [reflexivity|]. split; [reflexivity|].
  intros Hin.
  assert (Hres : fst (getDevices staticOptions plainAdapter [rawA; rawB]
                        (snd (requestDevice staticOptions plainAdapter
                                (ArgObject (FiltersArray [vendorFilter 0x1234]))
                                [rawA; rawB] newWebUSB))) = [webB]) by reflexivity.
  rewrite Hres in Hin. destruct Hin as [Heq | []].
  discriminate Heq.
Qed.

(** * Further properties of the facade *)

(** ** What loading devices leaves alone *)

Lemma sameBridge_refl (st : WebUSB) : sameBridge st st.
Proof. repeat split. Qed.

Lemma sameBridge_trans (st1 st2 st3 : WebUSB) :
  sameBridge st1 st2 -> sameBridge st2 st3 -> sameBridge st1 st3.
Proof.
  unfold sameBridge. intros (A1 & A2 & A3 & A4 & A5) (B1 & B2 & B3 & B4 & B5).
  repeat split; congruence.
Qed.

Section LoadingFrame.

Variable options : USBOptions.
Variable createInstance : Device.t -> option bool -> option USBDevice.t.

Lemma getWebDevice_sameBridge (device : Device.t) (st : WebUSB) :
  sameBridge st (snd (getWebDevice options createInstance device st)).
Proof.
  unfold getWebDevice.
  destruct (map_has (knownDevices st) device); [apply sameBridge_refl|].
  destruct (createInstance device (autoDetachKernelDriver options)) as [w|];
    destruct (deviceTimeout options) as [ms|]; try destruct (ms =? 0);
    repeat split.
Qed.

Lemma adaptAll_sameBridge (devices : list Device.t) (refreshed : DeviceMap) (st : WebUSB) :
  sameBridge st (snd (adaptAll options createInstance devices refreshed st)).
Proof.
  revert refreshed st. induction devices as [|device rest IH]; intros refreshed st.
  - apply sameBridge_refl.
  - cbn [adaptAll]. pose proof (getWebDevice_sameBridge device st) as Hg.
    destruct (getWebDevice options createInstance device st) as [[w|] st1];
      cbn [snd] in Hg; exact (sameBridge_trans _ _ _ Hg (IH _ st1)).
Qed.

Lemma loadDevices_sameBridge (deviceList : list Device.t)
    (preFilters : option (list USBDeviceFilter.t)) (st : WebUSB) :
  sameBridge st (snd (loadDevices options createInstance deviceList preFilters st)).
Proof.
  unfold loadDevices.
  pose proof (adaptAll_sameBridge (quickFilter deviceList preFilters) []
                (logCall GetDeviceList st)) as Ha.
  destruct (adaptAll options createInstance (quickFilter deviceList preFilters) []
              (logCall GetDeviceList st)) as [refreshed st1].
  cbn [snd] in *. exact Ha.
Qed.

Lemma getDevices_snd (deviceList : list Device.t) (st : WebUSB) :
  snd (getDevices options createInstance deviceList st)
  = snd (loadDevices options createInstance deviceList
           (if allowAllDevices options then None else allowedDevices options) st).
Proof.
  unfold getDevices.
  destruct (loadDevices options createInstance deviceList
              (if allowAllDevices options then None else allowedDevices options) st).
  reflexivity.
Qed.

Lemma requestDevice_sameBridge (request : RequestArg) (deviceList : list Device.t)
    (st : WebUSB) :
  sameBridge st (snd (requestDevice options createInstance request deviceList st)).
Proof.
  destruct request as [| |[| |filters]]; try apply sameBridge_refl.
  destruct (checkFilters filters) as [e|] eqn:Hok.
  - unfold requestDevice. rewrite Hok. apply sameBridge_refl.
  - rewrite (requestDevice_validated options createInstance filters deviceList st Hok).
    cbv zeta.
    pose proof (loadDevices_sameBridge deviceList (Some filters) st) as Hload.
    destruct (candidates options createInstance filters deviceList st) as [|c rest];
      [exact Hload|].
    destruct (selectDevice options (c :: rest)); exact Hload.
Qed.



End LoadingFrame.

(** ** requestDevice: what a successful call guarantees *)

Section RequestOutcome.

Variable options : USBOptions.
Variable createInstance : Device.t -> option bool -> option USBDevice.t.

Lemma isAuthorisedDevice_grows (st st' : WebUSB) (more : list USBDeviceFilter.t)
    (w : USBDevice.t) :
  authorisedDevices st' = authorisedDevices st ++ more ->
  isAuthorisedDevice options st w = true ->
  isAuthorisedDevice options st' w = true.
Proof.
  unfold isAuthorisedDevice. intros ->.
  destruct (allowAllDevices options); [trivial|].
  destruct (match allowedDevices options with
            | Some fs => filterDevice w (Some fs)
            | None => false
            end); [trivial|].
  rewrite existsb_app. intros ->. reflexivity.
Qed.

Lemma isAuthorisedDevice_snapshot (st st' : WebUSB) (w : USBDevice.t) :
  authorisedDevices st' = authorisedDevices st ++ [snapshot w] ->
  isAuthorisedDevice options st' w = true.
Proof.
  unfold isAuthorisedDevice. intros ->.
  destruct (allowAllDevices options); [reflexivity|].
  destruct (match allowedDevices options with
            | Some fs => filterDevice w (Some fs)
            | None => false
            end); [reflexivity|].
  rewrite existsb_app. cbn. rewrite authorisedMatches_snapshot.
  rewrite orb_true_r. reflexivity.
Qed.

(** X2: whatever device [requestDevice] returns is authorised in the
    resulting state, also when the [devicesFound] callback picked a device
    that was not among the candidates; and no device authorised before the
    call loses its authorisation. *)
Theorem requestDevice_returned_is_authorised (request : RequestArg)
    (deviceList : list Device.t) (st st' : WebUSB) (selected : USBDevice.t) :
  requestDevice options createInstance request deviceList st = (Returned selected, st') ->
  isAuthorisedDevice options st' selected = true
  /\ (forall w, isAuthorisedDevice options st w = true ->
                isAuthorisedDevice options st' w = true).
Proof.
  intros Hreq.
  pose proof (requestDevice_authorised_set options createInstance request deviceList st)
    as Hset.
  rewrite Hreq in Hset. split.
  - exact (isAuthorisedDevice_snapshot st st' selected Hset).
  - intros w. exact (isAuthorisedDevice_grows st st' [snapshot selected] w Hset).
Qed.



(** X4: without a [devicesFound] callback, the device [requestDevice]
    returns is the first candidate: it passes [filterDevice] on the request
    filters and is in the cache of the resulting state. *)
Theorem requestDevice_default_selection (filters : list USBDeviceFilter.t)
    (deviceList : list Device.t) (st st' : WebUSB) (selected : USBDevice.t) :
  devicesFound options = None ->
  requestDevice options createInstance (ArgObject (FiltersArray filters)) deviceList st
  = (Returned selected, st') ->
  (exists rest, candidates options createInstance filters deviceList st = selected :: rest)
  /\ filterDevice selected (Some filters) = true
  /\ In selected (map_values (knownDevices st')).
Proof.
  intros Hcb Hreq.
  destruct (checkFilters filters) as [e|] eqn:Hok.
  { unfold requestDevice in Hreq. rewrite Hok in Hreq. discriminate Hreq. }
  rewrite (requestDevice_validated options createInstance filters deviceList st Hok)
    in Hreq.
  cbv zeta in Hreq. unfold selectDevice in Hreq. rewrite Hcb in Hreq.
  destruct (candidates options createInstance filters deviceList st) as [|c rest] eqn:Hc;
    [discriminate Hreq|].
  injection Hreq as Hsel Hst. subst c.
  assert (Hin : In selected (candidates options createInstance filters deviceList st))
    by (rewrite Hc; left; reflexivity).
  unfold candidates in Hin. apply filter_In in Hin. destruct Hin as [Hload Hf].
  split; [exists rest; reflexivity | split; [exact Hf|]].
  subst st'. cbn [addAuthorised knownDevices].
  unfold loadDevices in *.
  destruct (adaptAll options createInstance (quickFilter deviceList (Some filters)) []
              (logCall GetDeviceList st)) as [refreshed st1].
  exact Hload.
Qed.

(** X5: a successful or not-found [requestDevice] rebuilds the cache from
    the raw devices that pass [quickFilter] on the request filters, so a raw
    device that does not pass it is no longer cached afterwards, and its
    detach emits nothing even if its device is authorised. *)
Theorem requestDevice_evicts_filtered_out (filters : list USBDeviceFilter.t)
    (deviceList : list Device.t) (st : WebUSB) (raw : Device.t) :
  checkFilters filters = None ->
  ~ In raw (quickFilter deviceList (Some filters)) ->
  let st' := snd (requestDevice options createInstance (ArgObject (FiltersArray filters))
                    deviceList st) in
  map_get (knownDevices st') raw = None
  /\ deviceDisconnectCallback options raw st' = st'.
Proof.
  intros Hok Hout st'.
  assert (Hknown : knownDevices st'
                   = knownDevices (snd (loadDevices options createInstance deviceList
                                          (Some filters) st))).
  { subst st'.
    rewrite (requestDevice_validated options createInstance filters deviceList st Hok).
    cbv zeta.
    destruct (candidates options createInstance filters deviceList st) as [|c rest];
      [reflexivity|].
    destruct (selectDevice options (c :: rest)); reflexivity. }
  assert (Hget : map_get (knownDevices st') raw = None).
  { rewrite Hknown. unfold loadDevices.
    pose proof (adaptAll_get options createInstance
                  (quickFilter deviceList (Some filters)) []
                  (logCall GetDeviceList st) raw) as Hg.
    destruct (adaptAll options createInstance (quickFilter deviceList (Some filters)) []
                (logCall GetDeviceList st)) as [refreshed st1].
    cbn [fst snd knownDevices setKnownDevices map_get] in *.
    rewrite Hg.
    destruct (existsb (Device.eqb raw) (quickFilter deviceList (Some filters))) eqn:Hex;
      [|reflexivity].
    apply existsb_exists in Hex. destruct Hex as [k [Hin Heq]].
    apply Device_eqb_eq in Heq. subst k. contradiction. }
  split; [exact Hget|].
  unfold deviceDisconnectCallback, map_has. rewrite Hget. reflexivity.
Qed.

(** X6: neither [requestDevice] nor [getDevices] emits an event, registers
    or removes a listener, or changes the backend registrations. *)
Theorem facade_methods_leave_bridge_alone (request : RequestArg)
    (deviceList : list Device.t) (st : WebUSB) :
  sameBridge st (snd (requestDevice options createInstance request deviceList st))
  /\ sameBridge st (snd (getDevices options createInstance deviceList st)).
Proof.
  split.
  - apply requestDevice_sameBridge.
  - rewrite getDevices_snd. apply loadDevices_sameBridge.
Qed.

End RequestOutcome.


Lemma requestDevice_returned_is_authorised_witness :
  requestDevice staticOptions plainAdapter requestA [rawA; rawB] newWebUSB
  = (Returned webA, afterRequestA)
  /\ isAuthorisedDevice staticOptions afterRequestA webA = true
  /\ (forall w, isAuthorisedDevice staticOptions newWebUSB w = true ->
                isAuthorisedDevice staticOptions afterRequestA w = true).
Proof.
  split; [reflexivity|].
  apply (requestDevice_returned_is_authorised staticOptions plainAdapter requestA
           [rawA; rawB] newWebUSB afterRequestA webA).
  reflexivity.
Defined.

Lemma requestDevice_default_selection_witness :
  devicesFound staticOptions = None
  /\ requestDevice staticOptions plainAdapter
       (ArgObject (FiltersArray [vendorFilter 0x1234])) [rawA; rawB] newWebUSB
     = (Returned webA, afterRequestA)
  /\ (exists rest,
        candidates staticOptions plainAdapter [vendorFilter 0x1234] [rawA; rawB] newWebUSB
        = webA :: rest)
  /\ filterDevice webA (Some [vendorFilter 0x1234]) = true
  /\ In webA (map_values (knownDevices afterRequestA)).
Proof.
  split; [reflexivity | split; [reflexivity|]].
  apply (requestDevice_default_selection staticOptions plainAdapter
           [vendorFilter 0x1234] [rawA; rawB] newWebUSB afterRequestA webA);
    reflexivity.
Defined.

Lemma requestDevice_evicts_filtered_out_witness :
  checkFilters [vendorFilter 0x1234] = None
  /\ ~ In rawB (quickFilter [rawA; rawB] (Some [vendorFilter 0x1234]))
  /\ map_get (knownDevices cachedBoth) rawB = Some webB
  /\ map_get (knownDevices
                (snd (requestDevice openOptions plainAdapter
                        (ArgObject (FiltersArray [vendorFilter 0x1234]))
                        [rawA; rawB] cachedBoth))) rawB = None
  /\ deviceDisconnectCallback openOptions rawB
       (snd (requestDevice openOptions plainAdapter
               (ArgObject (FiltersArray [vendorFilter 0x1234])) [rawA; rawB] cachedBoth))
     = snd (requestDevice openOptions plainAdapter
              (ArgObject (FiltersArray [vendorFilter 0x1234])) [rawA; rawB] cachedBoth).
Proof.
  assert (Hout : ~ In rawB (quickFilter [rawA; rawB] (Some [vendorFilter 0x1234]))).
  { cbn. intros [H | []]. discriminate H. }
  split; [reflexivity | split; [exact Hout | split; [reflexivity|]]].
  exact (requestDevice_evicts_filtered_out openOptions plainAdapter
           [vendorFilter 0x1234] [rawA; rawB] cachedBoth rawB eq_refl Hout).
Defined.

(** ** The adapter cache *)

Section CacheBehaviour.

Variable options : USBOptions.
Variable createInstance : Device.t -> option bool -> option USBDevice.t.

(** X7: once [getWebDevice] has yielded a device for a raw device, calling
    it again yields the same device and changes nothing: no timeout is set
    and the adapter is not asked again. *)
Theorem getWebDevice_second_call (device : Device.t) (st : WebUSB) (w : USBDevice.t) :
  fst (getWebDevice options createInstance device st) = Some w ->
  getWebDevice options createInstance device
    (snd (getWebDevice options createInstance device st))
  = (Some w, snd (getWebDevice options createInstance device st)).
Proof.
  intros Hfirst.
  assert (Hcached : map_get (knownDevices
                               (snd (getWebDevice options createInstance device st)))
                      device = Some w).
  { rewrite getWebDevice_fst in Hfirst. unfold adapted in Hfirst.
    rewrite getWebDevice_known.
    destruct (map_get (knownDevices st) device) as [w0|] eqn:Hget.
    - rewrite Hget. exact Hfirst.
    - rewrite Hfirst. apply map_get_set_same. }
  set (st1 := snd (getWebDevice options createInstance device st)) in *.
  unfold getWebDevice at 1. unfold map_has. rewrite Hcached. reflexivity.
Qed.

End CacheBehaviour.

Section CacheRebuild.

Variable options : USBOptions.
Variable createInstance : Device.t -> option bool -> option USBDevice.t.

Lemma loadDevices_get (deviceList : list Device.t)
    (preFilters : option (list USBDeviceFilter.t)) (st : WebUSB) (k : Device.t) :
  map_get (knownDevices (snd (loadDevices options createInstance deviceList preFilters st)))
    k
  = if existsb (Device.eqb k) (quickFilter deviceList preFilters)
    then adapted options createInstance (knownDevices st) k
    else None.
Proof.
  unfold loadDevices.
  pose proof (adaptAll_get options createInstance (quickFilter deviceList preFilters) []
                (logCall GetDeviceList st) k) as Hget.
  destruct (adaptAll options createInstance (quickFilter deviceList preFilters) []
              (logCall GetDeviceList st)) as [refreshed st1].
  cbn [fst snd knownDevices setKnownDevices logCall map_get] in *.
  rewrite Hget.
  destruct (existsb (Device.eqb k) (quickFilter deviceList preFilters)); [|reflexivity].
  destruct (adapted options createInstance (knownDevices st) k); reflexivity.
Qed.

Lemma existsb_eqb_In (k : Device.t) (devices : list Device.t) :
  existsb (Device.eqb k) devices = true <-> In k devices.
Proof.
  rewrite existsb_exists. split.
  - intros [x [Hin Heq]]. apply Device_eqb_eq in Heq. subst x. exact Hin.
  - intros Hin. exists k. split; [exact Hin | apply Device_eqb_refl].
Qed.

(** X8: [loadDevices] rebuilds the cache from scratch: afterwards a raw
    device that is enumerated and passes [quickFilter] is cached with
    exactly what [getWebDevice] yields for it (the previously cached device
    if there was one, else the newly created one, or nothing if the adapter
    fails), and every other raw device, cached before or not, is not in the
    cache. *)
Theorem loadDevices_rebuilds_cache (deviceList : list Device.t)
    (preFilters : option (list USBDeviceFilter.t)) (st : WebUSB) (k : Device.t) :
  let st' := snd (loadDevices options createInstance deviceList preFilters st) in
  (In k (quickFilter deviceList preFilters) ->
   map_get (knownDevices st') k = fst (getWebDevice options createInstance k st))
  /\ (~ In k (quickFilter deviceList preFilters) -> map_get (knownDevices st') k = None)
  /\ fst (loadDevices options createInstance deviceList preFilters st)
     = map_values (knownDevices st').
Proof.
  intros st'. subst st'. split; [|split].
  - intros Hin. rewrite loadDevices_get, getWebDevice_fst.
    apply existsb_eqb_In in Hin. rewrite Hin. reflexivity.
  - intros Hout. rewrite loadDevices_get.
    destruct (existsb (Device.eqb k) (quickFilter deviceList preFilters)) eqn:Hex;
      [|reflexivity].
    apply existsb_eqb_In in Hex. contradiction.
  - unfold loadDevices.
    destruct (adaptAll options createInstance (quickFilter deviceList preFilters) []
                (logCall GetDeviceList st)) as [refreshed st1].
    reflexivity.
Qed.

Lemma adaptAll_all_cached (devices : list Device.t) (refreshed : DeviceMap) (st : WebUSB) :
  (forall k, In k devices -> map_has (knownDevices st) k = true) ->
  snd (adaptAll options createInstance devices refreshed st) = st.
Proof.
  revert refreshed. induction devices as [|device rest IH]; intros refreshed Hall.
  - reflexivity.
  - cbn [adaptAll]. unfold getWebDevice.
    rewrite (Hall device (or_introl eq_refl)).
    assert (Hrest : forall k, In k rest -> map_has (knownDevices st) k = true)
      by (intros k Hk; apply Hall; right; exact Hk).
    destruct (map_get (knownDevices st) device); apply IH; exact Hrest.
Qed.

(** X9: when every enumerated raw device that passes [quickFilter] is
    already cached, [loadDevices] makes a single backend call, the device
    enumeration: no timeout is set and the adapter is not invoked. *)
Theorem loadDevices_reuses_cache (deviceList : list Device.t)
    (preFilters : option (list USBDeviceFilter.t)) (st : WebUSB) :
  (forall k, In k (quickFilter deviceList preFilters) ->
             map_has (knownDevices st) k = true) ->
  backendCalls (snd (loadDevices options createInstance deviceList preFilters st))
  = backendCalls st ++ [GetDeviceList].
Proof.
  intros Hall. unfold loadDevices.
  pose proof (adaptAll_all_cached (quickFilter deviceList preFilters) []
                (logCall GetDeviceList st) Hall) as Hsame.
  destruct (adaptAll options createInstance (quickFilter deviceList preFilters) []
              (logCall GetDeviceList st)) as [refreshed st1].
  cbn [snd] in *. subst st1. reflexivity.
Qed.

Lemma adaptAll_fst_ext (devices : list Device.t) (refreshed : DeviceMap)
    (st st' : WebUSB) :
  (forall k, In k devices ->
             adapted options createInstance (knownDevices st) k
             = adapted options createInstance (knownDevices st') k) ->
  fst (adaptAll options createInstance devices refreshed st)
  = fst (adaptAll options createInstance devices refreshed st').
Proof.
  revert refreshed st st'.
  induction devices as [|device rest IH]; intros refreshed st st' Hsame.
  - reflexivity.
  - cbn [adaptAll].
    pose proof (getWebDevice_fst options createInstance device st) as H1.
    pose proof (getWebDevice_fst options createInstance device st') as H2.
    assert (Hrest : forall k, In k rest ->
              adapted options createInstance
                (knownDevices (snd (getWebDevice options createInstance device st))) k
              = adapted options createInstance
                  (knownDevices (snd (getWebDevice options createInstance device st'))) k).
    { intros k Hk. rewrite !getWebDevice_adapted_stable. apply Hsame. right. exact Hk. }
    rewrite <- (Hsame device (or_introl eq_refl)) in H2.
    destruct (getWebDevice options createInstance device st) as [x st1].
    destruct (getWebDevice options createInstance device st') as [x' st1'].
    cbn [fst snd] in *. subst x x'.
    destruct (adapted options createInstance (knownDevices st) device) as [w|];
      apply IH; exact Hrest.
Qed.

Lemma loadDevices_fst_snd (deviceList : list Device.t)
    (preFilters : option (list USBDeviceFilter.t)) (st : WebUSB) :
  fst (loadDevices options createInstance deviceList preFilters st)
  = map_values (knownDevices
                  (snd (loadDevices options createInstance deviceList preFilters st))).
Proof.
  unfold loadDevices.
  destruct (adaptAll options createInstance (quickFilter deviceList preFilters) []
              (logCall GetDeviceList st)) as [refreshed st1].
  reflexivity.
Qed.

Lemma loadDevices_known_fst (deviceList : list Device.t)
    (preFilters : option (list USBDeviceFilter.t)) (st : WebUSB) :
  knownDevices (snd (loadDevices options createInstance deviceList preFilters st))
  = fst (adaptAll options createInstance (quickFilter deviceList preFilters) []
           (logCall GetDeviceList st)).
Proof.
  unfold loadDevices.
  destruct (adaptAll options createInstance (quickFilter deviceList preFilters) []
              (logCall GetDeviceList st)) as [refreshed st1].
  reflexivity.
Qed.

(** Loading the same enumeration twice in a row gives the same cache. *)
Lemma loadDevices_twice_known (deviceList : list Device.t)
    (preFilters : option (list USBDeviceFilter.t)) (st : WebUSB) :
  knownDevices
    (snd (loadDevices options createInstance deviceList preFilters
            (snd (loadDevices options createInstance deviceList preFilters st))))
  = knownDevices (snd (loadDevices options createInstance deviceList preFilters st)).
Proof.
  set (st1 := snd (loadDevices options createInstance deviceList preFilters st)).
  rewrite (loadDevices_known_fst deviceList preFilters st1).
  unfold st1 at 2. rewrite (loadDevices_known_fst deviceList preFilters st).
  apply adaptAll_fst_ext. intros k Hk.
  cbn [knownDevices logCall]. unfold adapted at 1.
  unfold st1. rewrite loadDevices_get.
  apply existsb_eqb_In in Hk. rewrite Hk.
  unfold adapted.
  destruct (map_get (knownDevices st) k) as [w|]; [reflexivity|].
  destruct (createInstance k (autoDetachKernelDriver options)) as [w|];
    reflexivity.
Qed.

(** X10: with the same enumeration, a second [getDevices] right after a
    first one returns the same list of devices, in the same order, and
    leaves the same cache. *)
Theorem getDevices_twice (deviceList : list Device.t) (st : WebUSB) :
  let st1 := snd (getDevices options createInstance deviceList st) in
  fst (getDevices options createInstance deviceList st1)
  = fst (getDevices options createInstance deviceList st)
  /\ knownDevices (snd (getDevices options createInstance deviceList st1))
     = knownDevices st1.
Proof.
  intros st1. subst st1. rewrite !getDevices_snd.
  set (pre := if allowAllDevices options then None else allowedDevices options).
  pose proof (loadDevices_twice_known deviceList pre st) as Htwice.
  split; [|exact Htwice].
  assert (Hfst : forall s,
            fst (getDevices options createInstance deviceList s)
            = filter (isAuthorisedDevice options s)
                (map_values (knownDevices
                   (snd (loadDevices options createInstance deviceList pre s))))).
  { intros s. unfold getDevices. fold pre.
    pose proof (loadDevices_fst_snd deviceList pre s) as Hv.
    pose proof (loadDevices_authorised options createInstance deviceList pre s) as Ha.
    destruct (loadDevices options createInstance deviceList pre s) as [devices s1].
    cbn [fst snd] in *. rewrite Hv.
    apply filter_ext. intros w.
    apply isAuthorisedDevice_same_set. exact Ha. }
  rewrite !Hfst, Htwice.
  apply filter_ext. intros w. apply isAuthorisedDevice_same_set.
  apply (loadDevices_authorised options createInstance deviceList pre st).
Qed.

End CacheRebuild.

Lemma getWebDevice_second_call_witness :
  fst (getWebDevice openOptions plainAdapter rawA newWebUSB) = Some webA
  /\ getWebDevice openOptions plainAdapter rawA
       (snd (getWebDevice openOptions plainAdapter rawA newWebUSB))
     = (Some webA, snd (getWebDevice openOptions plainAdapter rawA newWebUSB)).
Proof.
  split; [reflexivity|].
  apply (getWebDevice_second_call openOptions plainAdapter rawA newWebUSB webA).
  reflexivity.
Defined.

Lemma loadDevices_rebuilds_cache_witness :
  In rawA (quickFilter [rawA] None)
  /\ ~ In rawB (quickFilter [rawA] None)
  /\ map_get (knownDevices cachedBoth) rawB = Some webB
  /\ map_get (knownDevices (snd (loadDevices openOptions plainAdapter [rawA] None cachedBoth)))
       rawA
     = fst (getWebDevice openOptions plainAdapter rawA cachedBoth)
  /\ map_get (knownDevices (snd (loadDevices openOptions plainAdapter [rawA] None cachedBoth)))
       rawB
     = None.
Proof.
  assert (Hin : In rawA (quickFilter [rawA] None)) by (left; reflexivity).
  assert (Hout : ~ In rawB (quickFilter [rawA] None)).
  { cbn. intros [H | []]. discriminate H. }
  split; [exact Hin | split; [exact Hout | split; [reflexivity|]]].
  split.
  - exact (proj1 (loadDevices_rebuilds_cache openOptions plainAdapter [rawA] None
                    cachedBoth rawA) Hin).
  - exact (proj1 (proj2 (loadDevices_rebuilds_cache openOptions plainAdapter [rawA] None
                           cachedBoth rawB)) Hout).
Defined.

Lemma loadDevices_reuses_cache_witness :
  (forall k, In k (quickFilter [rawB; rawA] None) ->
             map_has (knownDevices cachedBoth) k = true)
  /\ backendCalls (snd (loadDevices openOptions plainAdapter [rawB; rawA] None cachedBoth))
     = backendCalls cachedBoth ++ [GetDeviceList].
Proof.
  assert (Hall : forall k, In k (quickFilter [rawB; rawA] None) ->
                           map_has (knownDevices cachedBoth) k = true).
  { intros k [<- | [<- | []]]; reflexivity. }
  split; [exact Hall|].
  exact (loadDevices_reuses_cache openOptions plainAdapter [rawB; rawA] None cachedBoth Hall).
Defined.

(** ** Authorisation *)

Lemma filter_none {A : Type} (p : A -> bool) (l : list A) :
  (forall a, In a l -> p a = false) -> filter p l = [].
Proof.
  induction l as [|a l IH]; intros H; cbn; [reflexivity|].
  rewrite (H a (or_introl eq_refl)). apply IH. intros b Hb. apply H. right. exact Hb.
Qed.

Section Authorisation.

Variable options : USBOptions.
Variable createInstance : Device.t -> option bool -> option USBDevice.t.

Lemma getDevices_In (deviceList : list Device.t) (st : WebUSB) (w : USBDevice.t) :
  In w (fst (getDevices options createInstance deviceList st))
  <-> (exists raw,
         In raw (quickFilter deviceList
                   (if allowAllDevices options then None else allowedDevices options))
         /\ fst (getWebDevice options createInstance raw st) = Some w)
      /\ isAuthorisedDevice options st w = true.
Proof.
  unfold getDevices.
  set (pre := if allowAllDevices options then None else allowedDevices options).
  pose proof (loadDevices_In options createInstance deviceList pre st w) as Hload.
  pose proof (loadDevices_authorised options createInstance deviceList pre st) as Hauth.
  destruct (loadDevices options createInstance deviceList pre st) as [devices st1].
  cbn [fst snd] in *. rewrite filter_In, Hload.
  rewrite (isAuthorisedDevice_same_set options st1 st w Hauth).
  split; intros [[raw [Hin Had]] Hok]; (split; [exists raw; split; [exact Hin|] | exact Hok]).
  - rewrite getWebDevice_fst. exact Had.
  - rewrite getWebDevice_fst in Had. exact Had.
Qed.

(** X11: for every configuration, [getDevices] returns exactly the devices
    that are authorised and that [getWebDevice] yields for an enumerated raw
    device passing the [quickFilter] on [allowedDevices] (no pre-filter when
    [allowAllDevices] is set). *)
Theorem getDevices_returns_authorised_adapted (deviceList : list Device.t) (st : WebUSB)
    (w : USBDevice.t) :
  In w (fst (getDevices options createInstance deviceList st))
  <-> (exists raw,
         In raw (quickFilter deviceList
                   (if allowAllDevices options then None else allowedDevices options))
         /\ fst (getWebDevice options createInstance raw st) = Some w)
      /\ isAuthorisedDevice options st w = true.
Proof.
  exact (getDevices_In deviceList st w).
Qed.

(** X12: an empty [allowedDevices] array authorises every device: it is
    truthy and [filterDevice] accepts every device for an empty filter list,
    so [getDevices] then returns every device the enumerated raw devices
    adapt to, as under [allowAllDevices]. *)
Theorem empty_allowedDevices_allows_all (deviceList : list Device.t) (st : WebUSB)
    (w : USBDevice.t) :
  allowedDevices options = Some [] ->
  isAuthorisedDevice options st w = true
  /\ (In w (fst (getDevices options createInstance deviceList st))
      <-> exists raw, In raw deviceList
                      /\ fst (getWebDevice options createInstance raw st) = Some w).
Proof.
  intros Hempty.
  assert (Hauth : isAuthorisedDevice options st w = true).
  { unfold isAuthorisedDevice. rewrite Hempty.
    destruct (allowAllDevices options); reflexivity. }
  split; [exact Hauth|].
  rewrite getDevices_In, Hempty.
  assert (Hq : quickFilter deviceList (if allowAllDevices options then None else Some [])
               = deviceList)
    by (destruct (allowAllDevices options); reflexivity).
  rewrite Hq. tauto.
Qed.

(** X13: with neither [allowAllDevices] nor [allowedDevices] and nothing
    authorised so far, [getDevices] returns the empty list, and it still
    adapts and caches every enumerated raw device. *)
Theorem getDevices_nothing_authorised (deviceList : list Device.t) (st : WebUSB) :
  allowAllDevices options = false ->
  allowedDevices options = None ->
  authorisedDevices st = [] ->
  fst (getDevices options createInstance deviceList st) = []
  /\ (forall raw, In raw deviceList ->
        map_get (knownDevices (snd (getDevices options createInstance deviceList st))) raw
        = fst (getWebDevice options createInstance raw st)).
Proof.
  intros Hall Hallowed Hnone. split.
  - unfold getDevices. rewrite Hall, Hallowed.
    pose proof (loadDevices_authorised options createInstance deviceList None st) as Ha.
    destruct (loadDevices options createInstance deviceList None st) as [devices st1].
    cbn [fst snd] in *. apply filter_none. intros w _.
    unfold isAuthorisedDevice. rewrite Hall, Hallowed, Ha, Hnone. reflexivity.
  - intros raw Hin. rewrite getDevices_snd, Hall, Hallowed.
    rewrite loadDevices_get, getWebDevice_fst. cbn [quickFilter].
    apply existsb_eqb_In in Hin. rewrite Hin. reflexivity.
Qed.

(** X14: an authorisation snapshot matches a device exactly when the six
    recorded members (vendor, product, class, subclass, protocol, serial
    number) are equal, so the grant made for one device covers every device
    with the same six values and no other. *)
Theorem snapshot_matches_same_identity (granted other : USBDevice.t) :
  authorisedMatches other (snapshot granted) = true
  <-> USBDevice.vendorId other = USBDevice.vendorId granted
      /\ USBDevice.productId other = USBDevice.productId granted
      /\ USBDevice.deviceClass other = USBDevice.deviceClass granted
      /\ USBDevice.deviceSubclass other = USBDevice.deviceSubclass granted
      /\ USBDevice.deviceProtocol other = USBDevice.deviceProtocol granted
      /\ USBDevice.serialNumber other = USBDevice.serialNumber granted.
Proof.
  unfold authorisedMatches, snapshot, strictEqNum. cbn.
  rewrite !andb_true_iff, !Z.eqb_eq.
  assert (Hstr : strictEqStr (USBDevice.serialNumber granted) (USBDevice.serialNumber other)
                 = true
                 <-> USBDevice.serialNumber other = USBDevice.serialNumber granted).
  { unfold strictEqStr.
    destruct (USBDevice.serialNumber granted) as [a|],
             (USBDevice.serialNumber other) as [b|].
    - rewrite String.eqb_eq. split; congruence.
    - split; discriminate.
    - split; discriminate.
    - split; reflexivity. }
  rewrite Hstr. intuition congruence.
Qed.

End Authorisation.

Lemma empty_allowedDevices_allows_all_witness :
  allowedDevices
    {| devicesFound := None; allowedDevices := Some []; allowAllDevices := false;
       deviceTimeout := None; autoDetachKernelDriver := None |} = Some []
  /\ isAuthorisedDevice
       {| devicesFound := None; allowedDevices := Some []; allowAllDevices := false;
          deviceTimeout := None; autoDetachKernelDriver := None |} newWebUSB webA = true
  /\ (In webA
        (fst (getDevices
                {| devicesFound := None; allowedDevices := Some []; allowAllDevices := false;
                   deviceTimeout := None; autoDetachKernelDriver := None |}
                plainAdapter [rawA; rawB] newWebUSB))
      <-> exists raw,
            In raw [rawA; rawB]
            /\ fst (getWebDevice
                      {| devicesFound := None; allowedDevices := Some [];
                         allowAllDevices := false; deviceTimeout := None;
                         autoDetachKernelDriver := None |}
                      plainAdapter raw newWebUSB) = Some webA).
Proof.
  split; [reflexivity|].
  apply (empty_allowedDevices_allows_all
           {| devicesFound := None; allowedDevices := Some []; allowAllDevices := false;
              deviceTimeout := None; autoDetachKernelDriver := None |}
           plainAdapter [rawA; rawB] newWebUSB webA).
  reflexivity.
Defined.

Lemma getDevices_nothing_authorised_witness :
  allowAllDevices noOptions = false
  /\ allowedDevices noOptions = None
  /\ authorisedDevices newWebUSB = []
  /\ fst (getDevices noOptions plainAdapter [rawA; rawB] newWebUSB) = []
  /\ (forall raw, In raw [rawA; rawB] ->
        map_get (knownDevices (snd (getDevices noOptions plainAdapter [rawA; rawB] newWebUSB)))
          raw
        = fst (getWebDevice noOptions plainAdapter raw newWebUSB)).
Proof.
  split; [reflexivity | split; [reflexivity | split; [reflexivity|]]].
  apply (getDevices_nothing_authorised noOptions plainAdapter [rawA; rawB] newWebUSB);
    reflexivity.
Defined.

(** ** Histories: authorisation, notifications and subscriptions *)

Lemma applyOp_fields (op : ListenerOp) (st : WebUSB) :
  authorisedDevices (applyOp op st) = authorisedDevices st
  /\ emitted (applyOp op st) = emitted st.
Proof.
  destruct op as [c l | c l]; cbn.
  - unfold addEventListener, onNewListener.
    destruct (Nat.eqb (listenerCount st c) 0); split; reflexivity.
  - unfold removeEventListener.
    destruct (removeLast l (listeners st c)) as [ls|]; [|split; reflexivity].
    unfold onRemoveListener.
    destruct (Nat.eqb (listenerCount (setListeners c ls st) c) 0); split; reflexivity.
Qed.

Lemma bridged_same_fields (st st' : WebUSB) :
  connectListeners st' = connectListeners st ->
  disconnectListeners st' = disconnectListeners st ->
  attachCallbacks st' = attachCallbacks st ->
  detachCallbacks st' = detachCallbacks st ->
  bridged st -> bridged st'.
Proof.
  unfold bridged, listenerCount, listeners. intros -> -> -> ->. trivial.
Qed.

Section Histories.

Variable options : USBOptions.
Variable createInstance : Device.t -> option bool -> option USBDevice.t.

(** What one attach does, by the outcome of the adaptation. *)
Lemma deviceConnectCallback_unfold (raw : Device.t) (st : WebUSB) :
  deviceConnectCallback options createInstance raw st
  = let st1 := snd (getWebDevice options createInstance raw st) in
    match fst (getWebDevice options createInstance raw st) with
    | Some w =>
        if isAuthorisedDevice options st w
        then emit {| type := connect; device := w |} st1
        else st1
    | None => st1
    end.
Proof.
  unfold deviceConnectCallback.
  pose proof (getWebDevice_authorised options createInstance raw st) as Ha.
  destruct (getWebDevice options createInstance raw st) as [[w|] st1]; cbn [fst snd] in *;
    [|reflexivity].
  rewrite (isAuthorisedDevice_same_set options st1 st w Ha). reflexivity.
Qed.

Lemma getWebDevice_caches (raw : Device.t) (st : WebUSB) (w : USBDevice.t) :
  fst (getWebDevice options createInstance raw st) = Some w ->
  map_get (knownDevices (snd (getWebDevice options createInstance raw st))) raw = Some w.
Proof.
  intros Hfirst. rewrite getWebDevice_fst in Hfirst. unfold adapted in Hfirst.
  rewrite getWebDevice_known.
  destruct (map_get (knownDevices st) raw) as [w0|] eqn:Hget.
  - rewrite Hget. exact Hfirst.
  - rewrite Hfirst. apply map_get_set_same.
Qed.

(** X15: the attach handler adapts the raw device whatever its
    authorisation: if [getWebDevice] yields an authorised device it emits
    one connect event carrying it; if it yields an unauthorised device it
    emits nothing but the device is cached all the same; if the adaptation
    fails it emits nothing and the cache is unchanged. *)
Theorem deviceConnectCallback_outcomes (raw : Device.t) (st : WebUSB) :
  let st' := deviceConnectCallback options createInstance raw st in
  (forall w,
     fst (getWebDevice options createInstance raw st) = Some w ->
     isAuthorisedDevice options st w = true ->
     emitted st' = emitted st ++ [{| type := connect; device := w |}]
     /\ map_get (knownDevices st') raw = Some w)
  /\ (forall w,
        fst (getWebDevice options createInstance raw st) = Some w ->
        isAuthorisedDevice options st w = false ->
        emitted st' = emitted st /\ map_get (knownDevices st') raw = Some w)
  /\ (fst (getWebDevice options createInstance raw st) = None ->
      emitted st' = emitted st /\ knownDevices st' = knownDevices st).
Proof.
  intros st'. subst st'. rewrite deviceConnectCallback_unfold. cbv zeta.
  pose proof (getWebDevice_sameBridge options createInstance raw st)
    as (_ & _ & _ & _ & Hem).
  split; [|split].
  - intros w Hw Hauth. rewrite Hw, Hauth. cbn [emit emitted knownDevices].
    rewrite Hem. split; [reflexivity | exact (getWebDevice_caches raw st w Hw)].
  - intros w Hw Hauth. rewrite Hw, Hauth.
    split; [exact Hem | exact (getWebDevice_caches raw st w Hw)].
  - intros Hnone. rewrite Hnone. split; [exact Hem|].
    rewrite getWebDevice_fst in Hnone. unfold adapted in Hnone.
    rewrite getWebDevice_known.
    destruct (map_get (knownDevices st) raw); [discriminate Hnone|].
    rewrite Hnone. reflexivity.
Qed.

(** X16: an attach followed by the detach of the same raw device, for a
    device that adapts and is authorised, emits a connect event and then a
    disconnect event that carry the same adapted device. *)
Theorem attach_then_detach (raw : Device.t) (st : WebUSB) (w : USBDevice.t) :
  fst (getWebDevice options createInstance raw st) = Some w ->
  isAuthorisedDevice options st w = true ->
  emitted (deviceDisconnectCallback options raw
             (deviceConnectCallback options createInstance raw st))
  = emitted st ++ [{| type := connect; device := w |};
                   {| type := disconnect; device := w |}].
Proof.
  intros Hw Hauth. rewrite deviceConnectCallback_unfold. cbv zeta.
  rewrite Hw, Hauth.
  pose proof (getWebDevice_caches raw st w Hw) as Hcached.
  pose proof (getWebDevice_sameBridge options createInstance raw st)
    as (_ & _ & _ & _ & Hem).
  pose proof (getWebDevice_authorised options createInstance raw st) as Ha.
  set (st1 := snd (getWebDevice options createInstance raw st)) in *.
  unfold deviceDisconnectCallback, map_has. cbn [emit knownDevices].
  rewrite Hcached.
  assert (Hauth1 : isAuthorisedDevice options
                     (emit {| type := connect; device := w |} st1) w = true).
  { rewrite (isAuthorisedDevice_same_set options _ st w); [exact Hauth|].
    cbn [emit authorisedDevices]. exact Ha. }
  rewrite Hauth1. cbn [emit emitted]. rewrite Hem, <- app_assoc. reflexivity.
Qed.

Lemma applyCall_authorised (call : FacadeCall) (st : WebUSB) :
  exists more,
    authorisedDevices (applyCall options createInstance call st)
    = authorisedDevices st ++ more.
Proof.
  destruct call as [request deviceList | deviceList | raw | raw | op]; cbn [applyCall].
  - pose proof (requestDevice_authorised_set options createInstance request deviceList st)
      as Hset.
    destruct (requestDevice options createInstance request deviceList st) as [[d|e] st1];
      cbn [snd].
    + exists [snapshot d]. exact Hset.
    + exists []. rewrite app_nil_r. exact Hset.
  - exists []. rewrite app_nil_r, getDevices_snd. apply loadDevices_authorised.
  - exists []. rewrite app_nil_r.
    destruct (Nat.eqb (attachCallbacks st) 0); [reflexivity|].
    rewrite deviceConnectCallback_unfold. cbv zeta.
    pose proof (getWebDevice_authorised options createInstance raw st) as Ha.
    destruct (fst (getWebDevice options createInstance raw st)) as [w|]; [|exact Ha].
    destruct (isAuthorisedDevice options st w); exact Ha.
  - exists []. rewrite app_nil_r.
    destruct (Nat.eqb (detachCallbacks st) 0); [reflexivity|].
    unfold deviceDisconnectCallback.
    destruct (map_has (knownDevices st) raw); [|reflexivity].
    destruct (map_get (knownDevices st) raw) as [w|]; [|reflexivity].
    destruct (isAuthorisedDevice options st w); reflexivity.
  - exists []. rewrite app_nil_r. exact (proj1 (applyOp_fields op st)).
Qed.

Lemma runCalls_authorised (calls : list FacadeCall) (st : WebUSB) :
  exists more,
    authorisedDevices (runCalls options createInstance calls st)
    = authorisedDevices st ++ more.
Proof.
  revert st. induction calls as [|call rest IH]; intros st.
  - exists []. rewrite app_nil_r. reflexivity.
  - cbn. destruct (applyCall_authorised call st) as [m1 H1].
    destruct (IH (applyCall options createInstance call st)) as [m2 H2].
    exists (m1 ++ m2). unfold runCalls in H2. rewrite H2, H1, app_assoc. reflexivity.
Qed.

(** X17: authorisation is never revoked: whatever happens to an instance
    (requests, enumerations, raw events, listener registrations), its
    authorised set only gets longer and a device that was authorised stays
    authorised. *)
Theorem authorisation_never_revoked (calls : list FacadeCall) (st : WebUSB) :
  (exists more,
     authorisedDevices (runCalls options createInstance calls st)
     = authorisedDevices st ++ more)
  /\ (forall w,
        isAuthorisedDevice options st w = true ->
        isAuthorisedDevice options (runCalls options createInstance calls st) w = true).
Proof.
  split; [apply runCalls_authorised|].
  intros w. destruct (runCalls_authorised calls st) as [more Hmore].
  exact (isAuthorisedDevice_grows options st _ more w Hmore).
Qed.

End Histories.

Section HistoryInvariants.

Variable options : USBOptions.
Variable createInstance : Device.t -> option bool -> option USBDevice.t.

Lemma noticesSound_kept (st st' : WebUSB) (more : list USBDeviceFilter.t) :
  emitted st' = emitted st ->
  authorisedDevices st' = authorisedDevices st ++ more ->
  noticesSound options createInstance st ->
  noticesSound options createInstance st'.
Proof.
  unfold noticesSound. intros Hem Hauth Hold e He. rewrite Hem in He.
  destruct (Hold e He) as [Hok Hraw]. split; [|exact Hraw].
  exact (isAuthorisedDevice_grows options st st' more (device e) Hauth Hok).
Qed.

Lemma noticesSound_emit (st : WebUSB) (c : Channel) (w : USBDevice.t) (raw : Device.t) :
  isAuthorisedDevice options st w = true ->
  createInstance raw (autoDetachKernelDriver options) = Some w ->
  noticesSound options createInstance st ->
  noticesSound options createInstance (emit {| type := c; device := w |} st).
Proof.
  unfold noticesSound. intros Hauth Hraw Hold e He.
  cbn [emit emitted] in He. apply in_app_or in He.
  assert (Hsame : forall d, isAuthorisedDevice options
                              (emit {| type := c; device := w |} st) d
                            = isAuthorisedDevice options st d).
  { intros d. apply isAuthorisedDevice_same_set. reflexivity. }
  rewrite Hsame.
  destruct He as [He | [<- | []]].
  - exact (Hold e He).
  - cbn [device]. split; [exact Hauth | exists raw; exact Hraw].
Qed.

Lemma adapted_from_adapter (st : WebUSB) (raw : Device.t) (w : USBDevice.t) :
  cacheFromAdapter options createInstance st ->
  adapted options createInstance (knownDevices st) raw = Some w ->
  createInstance raw (autoDetachKernelDriver options) = Some w.
Proof.
  unfold adapted. intros Hinv.
  destruct (map_get (knownDevices st) raw) as [w0|] eqn:Hget; [|trivial].
  intros [= <-]. exact (Hinv raw w0 Hget).
Qed.

Lemma applyCall_noticesSound (call : FacadeCall) (st : WebUSB) :
  cacheFromAdapter options createInstance st ->
  noticesSound options createInstance st ->
  noticesSound options createInstance (applyCall options createInstance call st).
Proof.
  intros Hcache Hold.
  destruct call as [request deviceList | deviceList | raw | raw | op].
  - destruct (applyCall_authorised options createInstance
                (CallRequestDevice request deviceList) st) as [more Hmore].
    apply (noticesSound_kept st _ more); [|exact Hmore | exact Hold].
    cbn [applyCall].
    exact (proj2 (proj2 (proj2 (proj2
             (requestDevice_sameBridge options createInstance request deviceList st))))).
  - destruct (applyCall_authorised options createInstance (CallGetDevices deviceList) st)
      as [more Hmore].
    apply (noticesSound_kept st _ more); [|exact Hmore | exact Hold].
    cbn [applyCall]. rewrite getDevices_snd.
    exact (proj2 (proj2 (proj2 (proj2
             (loadDevices_sameBridge options createInstance deviceList _ st))))).
  - cbn [applyCall]. destruct (Nat.eqb (attachCallbacks st) 0); [exact Hold|].
    rewrite deviceConnectCallback_unfold. cbv zeta.
    pose proof (getWebDevice_authorised options createInstance raw st) as Ha.
    pose proof (getWebDevice_sameBridge options createInstance raw st)
      as (_ & _ & _ & _ & Hem).
    assert (Hst1 : noticesSound options createInstance
                     (snd (getWebDevice options createInstance raw st))).
    { apply (noticesSound_kept st _ []); [exact Hem | | exact Hold].
      rewrite app_nil_r. exact Ha. }
    destruct (fst (getWebDevice options createInstance raw st)) as [w|] eqn:Hw;
      [|exact Hst1].
    destruct (isAuthorisedDevice options st w) eqn:Hauth; [|exact Hst1].
    apply (noticesSound_emit _ connect w raw); [| |exact Hst1].
    + rewrite (isAuthorisedDevice_same_set options _ st w Ha). exact Hauth.
    + rewrite getWebDevice_fst in Hw. exact (adapted_from_adapter st raw w Hcache Hw).
  - cbn [applyCall]. destruct (Nat.eqb (detachCallbacks st) 0); [exact Hold|].
    unfold deviceDisconnectCallback, map_has.
    destruct (map_get (knownDevices st) raw) as [w|] eqn:Hget; [|exact Hold].
    destruct (isAuthorisedDevice options st w) eqn:Hauth; [|exact Hold].
    exact (noticesSound_emit st disconnect w raw Hauth (Hcache raw w Hget) Hold).
  - cbn [applyCall]. destruct (applyOp_fields op st) as [Ha Hem].
    apply (noticesSound_kept st _ []); [exact Hem | | exact Hold].
    rewrite app_nil_r. exact Ha.
Qed.

Lemma runCalls_noticesSound (calls : list FacadeCall) (st : WebUSB) :
  cacheFromAdapter options createInstance st ->
  noticesSound options createInstance st ->
  noticesSound options createInstance (runCalls options createInstance calls st).
Proof.
  revert st. induction calls as [|call rest IH]; intros st Hcache Hold.
  - exact Hold.
  - cbn. apply IH.
    + apply applyCall_cacheFromAdapter, Hcache.
    + apply applyCall_noticesSound; assumption.
Qed.

(** X18: every connect or disconnect event an instance has emitted, over
    any history starting from a fresh instance, carries a device that is
    authorised in the current state and that the adapter created for some
    raw device. *)
Theorem notifications_authorised_and_adapted (calls : list FacadeCall)
    (e : USBConnectionEvent) :
  In e (emitted (runCalls options createInstance calls newWebUSB)) ->
  isAuthorisedDevice options (runCalls options createInstance calls newWebUSB) (device e)
  = true
  /\ exists raw, createInstance raw (autoDetachKernelDriver options) = Some (device e).
Proof.
  apply (runCalls_noticesSound calls newWebUSB).
  - apply newWebUSB_cacheFromAdapter.
  - intros e0 [].
Qed.

Lemma applyCall_bridged (call : FacadeCall) (st : WebUSB) :
  bridged st -> bridged (applyCall options createInstance call st).
Proof.
  intros Hb. destruct call as [request deviceList | deviceList | raw | raw | op];
    cbn [applyCall].
  - destruct (requestDevice_sameBridge options createInstance request deviceList st)
      as (H1 & H2 & H3 & H4 & _).
    exact (bridged_same_fields st _ H1 H2 H3 H4 Hb).
  - rewrite getDevices_snd.
    destruct (loadDevices_sameBridge options createInstance deviceList
                (if allowAllDevices options then None else allowedDevices options) st)
      as (H1 & H2 & H3 & H4 & _).
    exact (bridged_same_fields st _ H1 H2 H3 H4 Hb).
  - destruct (Nat.eqb (attachCallbacks st) 0); [exact Hb|].
    rewrite deviceConnectCallback_unfold. cbv zeta.
    destruct (getWebDevice_sameBridge options createInstance raw st)
      as (H1 & H2 & H3 & H4 & _).
    destruct (fst (getWebDevice options createInstance raw st)) as [w|];
      [destruct (isAuthorisedDevice options st w)|];
      exact (bridged_same_fields st _ H1 H2 H3 H4 Hb).
  - destruct (Nat.eqb (detachCallbacks st) 0); [exact Hb|].
    unfold deviceDisconnectCallback.
    destruct (map_has (knownDevices st) raw); [|exact Hb].
    destruct (map_get (knownDevices st) raw) as [w|]; [|exact Hb].
    destruct (isAuthorisedDevice options st w); exact Hb.
  - destruct op as [c l | c l]; cbn.
    + apply addEventListener_bridged, Hb.
    + apply removeEventListener_bridged, Hb.
Qed.

Lemma runCalls_bridged (calls : list FacadeCall) (st : WebUSB) :
  bridged st -> bridged (runCalls options createInstance calls st).
Proof.
  revert st. induction calls as [|call rest IH]; intros st Hb.
  - exact Hb.
  - cbn. apply IH, applyCall_bridged, Hb.
Qed.

(** X19: over any history of an instance, requests, enumerations and raw
    events included, each backend callback is registered exactly once while
    its channel has at least one listener and not at all while it has none,
    for the disconnect channel as for the connect channel. *)
Theorem subscriptions_follow_listeners (calls : list FacadeCall) :
  let st := runCalls options createInstance calls newWebUSB in
  attachCallbacks st = (if Nat.eqb (listenerCount st connect) 0 then 0 else 1)%nat
  /\ detachCallbacks st = (if Nat.eqb (listenerCount st disconnect) 0 then 0 else 1)%nat.
Proof.
  assert (Hinit : bridged newWebUSB) by (split; reflexivity).
  exact (runCalls_bridged calls newWebUSB Hinit).
Qed.

End HistoryInvariants.

Lemma notifications_authorised_and_adapted_witness :
  In {| type := disconnect; device := webA |}
     (emitted (runCalls openOptions brokenAdapter
                 (busHistory ++ [RawDetach rawB; RawDetach rawA]) newWebUSB))
  /\ isAuthorisedDevice openOptions
       (runCalls openOptions brokenAdapter
          (busHistory ++ [RawDetach rawB; RawDetach rawA]) newWebUSB) webA = true
  /\ exists raw, brokenAdapter raw (autoDetachKernelDriver openOptions) = Some webA.
Proof.
  assert (Hin : In {| type := disconnect; device := webA |}
                   (emitted (runCalls openOptions brokenAdapter
                               (busHistory ++ [RawDetach rawB; RawDetach rawA])
                               newWebUSB))).
  { right. left. reflexivity. }
  split; [exact Hin|].
  exact (notifications_authorised_and_adapted openOptions brokenAdapter
           (busHistory ++ [RawDetach rawB; RawDetach rawA])
           {| type := disconnect; device := webA |} Hin).
Defined.

Lemma deviceConnectCallback_outcomes_witness :
  fst (getWebDevice staticOptions brokenAdapter rawA newWebUSB) = Some webA
  /\ isAuthorisedDevice staticOptions newWebUSB webA = false
  /\ fst (getWebDevice openOptions brokenAdapter rawA newWebUSB) = Some webA
  /\ isAuthorisedDevice openOptions newWebUSB webA = true
  /\ fst (getWebDevice openOptions brokenAdapter rawB newWebUSB) = None
  /\ (emitted (deviceConnectCallback openOptions brokenAdapter rawA newWebUSB)
      = emitted newWebUSB ++ [{| type := connect; device := webA |}]
      /\ map_get (knownDevices (deviceConnectCallback openOptions brokenAdapter rawA
                                  newWebUSB)) rawA = Some webA)
  /\ (emitted (deviceConnectCallback staticOptions brokenAdapter rawA newWebUSB)
      = emitted newWebUSB
      /\ map_get (knownDevices (deviceConnectCallback staticOptions brokenAdapter rawA
                                  newWebUSB)) rawA = Some webA)
  /\ (emitted (deviceConnectCallback openOptions brokenAdapter rawB newWebUSB)
      = emitted newWebUSB
      /\ knownDevices (deviceConnectCallback openOptions brokenAdapter rawB newWebUSB)
         = knownDevices newWebUSB).
Proof.
  repeat (split; [reflexivity|]).
  split; [|split].
  - exact (proj1 (deviceConnectCallback_outcomes openOptions brokenAdapter rawA newWebUSB)
             webA eq_refl eq_refl).
  - exact (proj1 (proj2 (deviceConnectCallback_outcomes staticOptions brokenAdapter rawA
                           newWebUSB)) webA eq_refl eq_refl).
  - exact (proj2 (proj2 (deviceConnectCallback_outcomes openOptions brokenAdapter rawB
                           newWebUSB)) eq_refl).
Defined.

Lemma attach_then_detach_witness :
  fst (getWebDevice openOptions plainAdapter rawB cachedA) = Some webB
  /\ isAuthorisedDevice openOptions cachedA webB = true
  /\ emitted (deviceDisconnectCallback openOptions rawB
                (deviceConnectCallback openOptions plainAdapter rawB cachedA))
     = emitted cachedA ++ [{| type := connect; device := webB |};
                           {| type := disconnect; device := webB |}].
Proof.
  split; [reflexivity | split; [reflexivity|]].
  apply (attach_then_detach openOptions plainAdapter rawB cachedA webB); reflexivity.
Defined.

Lemma authorisation_never_revoked_witness :
  isAuthorisedDevice staticOptions afterRequestA webA = true
  /\ (exists more,
        authorisedDevices (runCalls staticOptions brokenAdapter busHistory afterRequestA)
        = authorisedDevices afterRequestA ++ more)
  /\ isAuthorisedDevice staticOptions
       (runCalls staticOptions brokenAdapter busHistory afterRequestA) webA = true.
Proof.
  pose proof (authorisation_never_revoked staticOptions brokenAdapter busHistory
                afterRequestA) as [Hgrow Hkeep].
  split; [reflexivity | split; [exact Hgrow | exact (Hkeep webA eq_refl)]].
Defined.

(** ** Listener registration *)

Lemma removeLast_None (l : Listener) (ls : list Listener) :
  removeLast l ls = None <-> ~ In l ls.
Proof.
  induction ls as [|x rest IH]; cbn.
  - split; [intros _ [] | reflexivity].
  - destruct (removeLast l rest) as [rest'|].
    + split; [discriminate|].
      intros Hnot. exfalso. apply Hnot. right.
      destruct (in_dec Nat.eq_dec l rest) as [Hin | Hnin]; [exact Hin|].
      apply IH in Hnin. discriminate Hnin.
    + destruct (Nat.eqb x l) eqn:E.
      * apply Nat.eqb_eq in E. split; [discriminate|].
        intros Hnot. exfalso. apply Hnot. left. exact E.
      * apply Nat.eqb_neq in E. split; [|reflexivity].
        intros _ [Hx | Hin]; [exact (E Hx)|].
        exact (proj1 IH eq_refl Hin).
Qed.

Lemma removeLast_snoc (l : Listener) (ls : list Listener) :
  removeLast l (ls ++ [l]) = Some ls.
Proof.
  induction ls as [|x rest IH]; cbn.
  - rewrite Nat.eqb_refl. reflexivity.
  - rewrite IH. reflexivity.
Qed.

(** X20: removing a listener that is not registered on the channel changes
    nothing: no listener is dropped and the backend is not called. *)
Theorem removeEventListener_unregistered (c : Channel) (l : Listener) (st : WebUSB) :
  ~ In l (listeners st c) -> removeEventListener c l st = st.
Proof.
  intros Hnot. unfold removeEventListener.
  rewrite (proj2 (removeLast_None l (listeners st c)) Hnot). reflexivity.
Qed.

(** X21: adding a listener and removing it again restores the listeners of
    both channels and the backend registrations; the backend is called only
    if the channel had no listener, and then with one subscription followed
    by one unsubscription of the channel's raw event. *)
Theorem add_then_remove_listener (c : Channel) (l : Listener) (st : WebUSB) :
  let st' := removeEventListener c l (addEventListener c l st) in
  sameBridge st st'
  /\ backendCalls st'
     = backendCalls st
       ++ (if Nat.eqb (listenerCount st c) 0
           then [UsbAddListener (rawEvent c); UsbRemoveListener (rawEvent c)]
           else []).
Proof.
  intros st'. subst st'. unfold removeEventListener.
  assert (Hls : listeners (addEventListener c l st) c = listeners st c ++ [l]).
  { unfold addEventListener, onNewListener.
    destruct (Nat.eqb (listenerCount st c) 0); destruct c; reflexivity. }
  rewrite Hls, removeLast_snoc.
  unfold onRemoveListener, addEventListener, onNewListener, listenerCount.
  destruct c; cbn.
  - destruct (connectListeners st) as [|x rest] eqn:E; cbn; rewrite ?E; cbn;
      repeat split; cbn; rewrite ?E, ?app_nil_r, <- ?app_assoc; reflexivity.
  - destruct (disconnectListeners st) as [|x rest] eqn:E; cbn; rewrite ?E; cbn;
      repeat split; cbn; rewrite ?E, ?app_nil_r, <- ?app_assoc; reflexivity.
Qed.

Lemma removeEventListener_unregistered_witness :
  ~ In 7%nat (listeners cachedBoth connect)
  /\ removeEventListener connect 7%nat cachedBoth = cachedBoth.
Proof.
  assert (Hnot : ~ In 7%nat (listeners cachedBoth connect)).
  { cbn. intros [H | []]. discriminate H. }
  split; [exact Hnot|].
  exact (removeEventListener_unregistered connect 7%nat cachedBoth Hnot).
Defined.

(** ** The backend-call log and the registrations *)

Lemma sameUsbCalls_refl (st : WebUSB) : sameUsbCalls st st.
Proof. intros e. repeat split. Qed.

Lemma sameUsbCalls_trans (st1 st2 st3 : WebUSB) :
  sameUsbCalls st1 st2 -> sameUsbCalls st2 st3 -> sameUsbCalls st1 st3.
Proof.
  intros H12 H23 e. destruct (H12 e) as (A1 & A2 & A3), (H23 e) as (B1 & B2 & B3).
  repeat split; congruence.
Qed.

Lemma sameUsbCalls_balanced (st st' : WebUSB) :
  sameUsbCalls st st' -> balanced st -> balanced st'.
Proof.
  intros Hsame Hbal e. destruct (Hsame e) as (H1 & H2 & H3).
  rewrite H1, H2, H3. apply Hbal.
Qed.

Lemma sameUsbCalls_log (st : WebUSB) (c : BackendCall) :
  (forall e, isUsbAdd e c = false) ->
  (forall e, isUsbRemove e c = false) ->
  sameUsbCalls st (logCall c st).
Proof.
  intros Hadd Hrem e. unfold subscriptions, unsubscriptions. cbn [logCall backendCalls].
  rewrite !filter_app. cbn [filter]. rewrite Hadd, Hrem, !app_nil_r.
  repeat split; destruct e; reflexivity.
Qed.

Section LogBalance.

Variable options : USBOptions.
Variable createInstance : Device.t -> option bool -> option USBDevice.t.

Lemma getWebDevice_sameUsbCalls (device : Device.t) (st : WebUSB) :
  sameUsbCalls st (snd (getWebDevice options createInstance device st)).
Proof.
  unfold getWebDevice.
  destruct (map_has (knownDevices st) device); [apply sameUsbCalls_refl|].
  assert (Htimeout : sameUsbCalls st
            match deviceTimeout options with
            | Some t => if t =? 0 then st else logCall (SetTimeout device t) st
            | None => st
            end).
  { destruct (deviceTimeout options) as [ms|]; [destruct (ms =? 0)|];
      try apply sameUsbCalls_refl.
    apply sameUsbCalls_log; intros []; reflexivity. }
  set (st1 := match deviceTimeout options with
              | Some t => if t =? 0 then st else logCall (SetTimeout device t) st
              | None => st
              end) in *.
  assert (Hcreate : sameUsbCalls st
            (logCall (CreateInstance device (autoDetachKernelDriver options)) st1)).
  { apply (sameUsbCalls_trans _ _ _ Htimeout).
    apply sameUsbCalls_log; intros []; reflexivity. }
  destruct (createInstance device (autoDetachKernelDriver options)) as [w|];
    cbn [snd]; [|exact Hcreate].
  intros e. destruct (Hcreate e) as (H1 & H2 & H3).
  repeat split; [exact H1 | exact H2 | destruct e; exact H3].
Qed.

Lemma adaptAll_sameUsbCalls (devices : list Device.t) (refreshed : DeviceMap) (st : WebUSB) :
  sameUsbCalls st (snd (adaptAll options createInstance devices refreshed st)).
Proof.
  revert refreshed st. induction devices as [|device rest IH]; intros refreshed st.
  - apply sameUsbCalls_refl.
  - cbn [adaptAll]. pose proof (getWebDevice_sameUsbCalls device st) as Hg.
    destruct (getWebDevice options createInstance device st) as [[w|] st1];
      cbn [snd] in Hg; exact (sameUsbCalls_trans _ _ _ Hg (IH _ st1)).
Qed.

Lemma loadDevices_sameUsbCalls (deviceList : list Device.t)
    (preFilters : option (list USBDeviceFilter.t)) (st : WebUSB) :
  sameUsbCalls st (snd (loadDevices options createInstance deviceList preFilters st)).
Proof.
  unfold loadDevices.
  assert (H0 : sameUsbCalls st (logCall GetDeviceList st))
    by (apply sameUsbCalls_log; intros []; reflexivity).
  pose proof (adaptAll_sameUsbCalls (quickFilter deviceList preFilters) []
                (logCall GetDeviceList st)) as Ha.
  destruct (adaptAll options createInstance (quickFilter deviceList preFilters) []
              (logCall GetDeviceList st)) as [refreshed st1].
  cbn [snd] in *.
  apply (sameUsbCalls_trans _ _ _ H0).
  intros e. destruct (Ha e) as (H1 & H2 & H3).
  repeat split; [exact H1 | exact H2 | destruct e; exact H3].
Qed.

Lemma requestDevice_sameUsbCalls (request : RequestArg) (deviceList : list Device.t)
    (st : WebUSB) :
  sameUsbCalls st (snd (requestDevice options createInstance request deviceList st)).
Proof.
  destruct request as [| |[| |filters]]; try apply sameUsbCalls_refl.
  destruct (checkFilters filters) as [e|] eqn:Hok.
  - unfold requestDevice. rewrite Hok. apply sameUsbCalls_refl.
  - rewrite (requestDevice_validated options createInstance filters deviceList st Hok).
    cbv zeta.
    pose proof (loadDevices_sameUsbCalls deviceList (Some filters) st) as Hload.
    destruct (candidates options createInstance filters deviceList st) as [|c rest];
      [exact Hload|].
    destruct (selectDevice options (c :: rest)); exact Hload.
Qed.

Lemma addEventListener_balanced (c : Channel) (l : Listener) (st : WebUSB) :
  balanced st -> balanced (addEventListener c l st).
Proof.
  intros Hbal e. specialize (Hbal e).
  unfold addEventListener, onNewListener.
  unfold subscriptions, unsubscriptions in *.
  destruct (Nat.eqb (listenerCount st c) 0); destruct c, e;
    cbn in *; rewrite ?filter_app, ?length_app; cbn; lia.
Qed.

Lemma removeEventListener_balanced (c : Channel) (l : Listener) (st : WebUSB) :
  bridged st -> balanced st -> balanced (removeEventListener c l st).
Proof.
  intros [Hba Hbd] Hbal e. specialize (Hbal e).
  unfold removeEventListener.
  destruct (removeLast l (listeners st c)) as [ls|] eqn:Hrm; [|exact Hbal].
  apply removeLast_length in Hrm.
  unfold onRemoveListener, listenerCount in *.
  unfold subscriptions, unsubscriptions in *.
  destruct c; cbn in *; rewrite Hrm in *; cbn in *.
  - destruct ls as [|x rest]; destruct e;
      cbn in *; rewrite ?filter_app, ?length_app; cbn; lia.
  - destruct ls as [|x rest]; destruct e;
      cbn in *; rewrite ?filter_app, ?length_app; cbn; lia.
Qed.

Lemma applyCall_balanced (call : FacadeCall) (st : WebUSB) :
  bridged st -> balanced st -> balanced (applyCall options createInstance call st).
Proof.
  intros Hb Hbal. destruct call as [request deviceList | deviceList | raw | raw | op];
    cbn [applyCall].
  - exact (sameUsbCalls_balanced _ _
             (requestDevice_sameUsbCalls request deviceList st) Hbal).
  - rewrite getDevices_snd.
    exact (sameUsbCalls_balanced _ _ (loadDevices_sameUsbCalls deviceList _ st) Hbal).
  - destruct (Nat.eqb (attachCallbacks st) 0); [exact Hbal|].
    rewrite deviceConnectCallback_unfold. cbv zeta.
    pose proof (sameUsbCalls_balanced _ _ (getWebDevice_sameUsbCalls raw st) Hbal) as H1.
    destruct (fst (getWebDevice options createInstance raw st)) as [w|]; [|exact H1].
    destruct (isAuthorisedDevice options st w); [|exact H1].
    intros e. specialize (H1 e). destruct e; exact H1.
  - destruct (Nat.eqb (detachCallbacks st) 0); [exact Hbal|].
    unfold deviceDisconnectCallback.
    destruct (map_has (knownDevices st) raw); [|exact Hbal].
    destruct (map_get (knownDevices st) raw) as [w|]; [|exact Hbal].
    destruct (isAuthorisedDevice options st w); [|exact Hbal].
    intros e. specialize (Hbal e). destruct e; exact Hbal.
  - destruct op as [c l | c l]; cbn.
    + apply addEventListener_balanced, Hbal.
    + apply removeEventListener_balanced; assumption.
Qed.

Lemma runCalls_balanced (calls : list FacadeCall) (st : WebUSB) :
  bridged st -> balanced st -> balanced (runCalls options createInstance calls st).
Proof.
  revert st. induction calls as [|call rest IH]; intros st Hb Hbal.
  - exact Hbal.
  - cbn. apply IH.
    + apply applyCall_bridged, Hb.
    + apply applyCall_balanced; assumption.
Qed.

(** X22: over any history of a fresh instance the backend-call log is
    balanced for each raw event: the instance has asked the backend to add
    its callback exactly as many times as it has asked to remove it, plus
    one if the callback is registered now; it never adds the callback twice
    in a row and never removes a callback that is not registered. *)
Theorem backend_log_balanced (calls : list FacadeCall) (e : UsbEvent) :
  let st := runCalls options createInstance calls newWebUSB in
  subscriptions e (backendCalls st)
  = (unsubscriptions e (backendCalls st) + callbacks st e)%nat
  /\ (callbacks st e <= 1)%nat.
Proof.
  intros st.
  assert (Hinit : bridged newWebUSB) by (split; reflexivity).
  assert (Hbal0 : balanced newWebUSB) by (intros []; reflexivity).
  split.
  - exact (runCalls_balanced calls newWebUSB Hinit Hbal0 e).
  - destruct (runCalls_bridged options createInstance calls newWebUSB Hinit) as [Ha Hd].
    fold st in Ha, Hd. destruct e; cbn [callbacks].
    + rewrite Ha. destruct (Nat.eqb (listenerCount st connect) 0); lia.
    + rewrite Hd. destruct (Nat.eqb (listenerCount st disconnect) 0); lia.
Qed.

End LogBalance.

(** ** The handler slots *)

Lemma listeners_add (c c' : Channel) (l : Listener) (st : WebUSB) :
  listeners (addEventListener c l st) c'
  = listeners st c'
    ++ match c, c' with
       | connect, connect | disconnect, disconnect => [l]
       | _, _ => []
       end.
Proof.
  unfold addEventListener, onNewListener.
  destruct (Nat.eqb (listenerCount st c) 0); destruct c, c'; cbn;
    rewrite ?app_nil_r; reflexivity.
Qed.

Lemma listeners_remove_other (c c' : Channel) (l : Listener) (st : WebUSB) :
  c <> c' -> listeners (removeEventListener c l st) c' = listeners st c'.
Proof.
  intros Hne. unfold removeEventListener.
  destruct (removeLast l (listeners st c)) as [ls|]; [|reflexivity].
  unfold onRemoveListener.
  destruct (Nat.eqb (listenerCount (setListeners c ls st) c) 0);
    destruct c, c'; try reflexivity; contradiction.
Qed.

Lemma listeners_remove_same (c : Channel) (l : Listener) (st : WebUSB) :
  listeners (removeEventListener c l st) c
  = match removeLast l (listeners st c) with
    | Some ls => ls
    | None => listeners st c
    end.
Proof.
  unfold removeEventListener.
  destruct (removeLast l (listeners st c)) as [ls|]; [|reflexivity].
  unfold onRemoveListener.
  destruct (Nat.eqb (listenerCount (setListeners c ls st) c) 0); destruct c; reflexivity.
Qed.

Lemma listeners_connect (st : WebUSB) : connectListeners st = listeners st connect.
Proof. reflexivity. Qed.

Lemma listeners_disconnect (st : WebUSB) :
  disconnectListeners st = listeners st disconnect.
Proof. reflexivity. Qed.

(** Emptying a slot: the channel keeps no listener, the other channel and
    the bridge invariant are untouched. *)
Lemma clear_slot (c c' : Channel) (slot : option Listener) (st : WebUSB) :
  c <> c' ->
  listeners st c = slotListeners slot ->
  bridged st ->
  let st1 := match slot with
             | Some old => removeEventListener c old st
             | None => st
             end in
  listeners st1 c = [] /\ listeners st1 c' = listeners st c' /\ bridged st1.
Proof.
  intros Hne H1 H3. destruct slot as [old|]; cbn zeta.
  - split; [|split].
    + rewrite listeners_remove_same, H1. cbn. rewrite Nat.eqb_refl. reflexivity.
    + apply listeners_remove_other, Hne.
    + apply removeEventListener_bridged, H3.
  - split; [exact H1 | split; [reflexivity | exact H3]].
Qed.

Lemma setOnconnect_slotsHold (fn : option Listener) (h : Handlers) :
  slotsHold h -> slotsHold (setOnconnect fn h).
Proof.
  unfold slotsHold, setOnconnect. rewrite !listeners_connect, !listeners_disconnect.
  intros (Hc & Hd & Hb).
  assert (Hne : connect <> disconnect) by discriminate.
  destruct (clear_slot connect disconnect (_onconnect h) (instance h) Hne Hc Hb)
    as (H1 & H2 & H3).
  rewrite Hd in H2.
  destruct (_onconnect h) as [old|] eqn:Eslot; destruct fn as [f|];
    cbn [instance _onconnect _ondisconnect slotListeners] in *;
    rewrite ?Eslot; cbn [slotListeners].
  - rewrite !listeners_add, H1, H2, app_nil_r.
    split; [reflexivity | split; [reflexivity | apply addEventListener_bridged, H3]].
  - split; [exact H1 | split; [exact H2 | exact H3]].
  - rewrite !listeners_add, H1, H2, app_nil_r.
    split; [reflexivity | split; [reflexivity | apply addEventListener_bridged, H3]].
  - split; [exact H1 | split; [exact H2 | exact H3]].
Qed.

Lemma setOndisconnect_slotsHold (fn : option Listener) (h : Handlers) :
  slotsHold h -> slotsHold (setOndisconnect fn h).
Proof.
  unfold slotsHold, setOndisconnect. rewrite !listeners_connect, !listeners_disconnect.
  intros (Hc & Hd & Hb).
  assert (Hne : disconnect <> connect) by discriminate.
  destruct (clear_slot disconnect connect (_ondisconnect h) (instance h) Hne Hd Hb)
    as (H1 & H2 & H3).
  rewrite Hc in H2.
  destruct (_ondisconnect h) as [old|] eqn:Eslot; destruct fn as [f|];
    cbn [instance _onconnect _ondisconnect slotListeners] in *;
    rewrite ?Eslot; cbn [slotListeners].
  - rewrite !listeners_add, H1, H2, app_nil_r.
    split; [reflexivity | split; [reflexivity | apply addEventListener_bridged, H3]].
  - split; [exact H2 | split; [exact H1 | exact H3]].
  - rewrite !listeners_add, H1, H2, app_nil_r.
    split; [reflexivity | split; [reflexivity | apply addEventListener_bridged, H3]].
  - split; [exact H2 | split; [exact H1 | exact H3]].
Qed.

Lemma setOnconnect_slot (fn : option Listener) (h : Handlers) :
  _onconnect (setOnconnect fn h) = fn
  /\ _ondisconnect (setOnconnect fn h) = _ondisconnect h.
Proof.
  unfold setOnconnect.
  destruct (_onconnect h) eqn:E, fn; cbn; rewrite ?E; split; reflexivity.
Qed.

Lemma setOndisconnect_slot (fn : option Listener) (h : Handlers) :
  _ondisconnect (setOndisconnect fn h) = fn
  /\ _onconnect (setOndisconnect fn h) = _onconnect h.
Proof.
  unfold setOndisconnect.
  destruct (_ondisconnect h) eqn:E, fn; cbn; rewrite ?E; split; reflexivity.
Qed.

Lemma runSlotCalls_slotsHold (calls : list SlotCall) (h : Handlers) :
  slotsHold h -> slotsHold (runSlotCalls calls h).
Proof.
  revert h. induction calls as [|call rest IH]; intros h Hh.
  - exact Hh.
  - cbn. apply IH. destruct call as [fn | fn]; cbn.
    + apply setOnconnect_slotsHold, Hh.
    + apply setOndisconnect_slotsHold, Hh.
Qed.

Lemma runSlotCalls_last (calls : list SlotCall) (h : Handlers) :
  _onconnect (runSlotCalls calls h) = lastOnconnect calls (_onconnect h).
Proof.
  revert h. induction calls as [|call rest IH]; intros h.
  - reflexivity.
  - cbn [runSlotCalls fold_left lastOnconnect].
    change (fold_left (fun s call0 => applySlotCall call0 s) rest (applySlotCall call h))
      with (runSlotCalls rest (applySlotCall call h)).
    rewrite IH. destruct call as [fn | fn]; cbn [applySlotCall].
    + rewrite (proj1 (setOnconnect_slot fn h)). reflexivity.
    + rewrite (proj2 (setOndisconnect_slot fn h)). reflexivity.
Qed.

(** X23: however often [onconnect] and [ondisconnect] are assigned on a
    fresh instance, each channel's listeners are exactly the handler its
    slot holds (none after a falsy assignment), the [onconnect] slot holds
    the last value assigned to it, and the backend callback of a channel is
    registered once if its slot holds a handler and not at all otherwise. *)
Theorem handler_slots_history (calls : list SlotCall) :
  let h := runSlotCalls calls newHandlers in
  listeners (instance h) connect = slotListeners (_onconnect h)
  /\ listeners (instance h) disconnect = slotListeners (_ondisconnect h)
  /\ _onconnect h = lastOnconnect calls None
  /\ attachCallbacks (instance h) = List.length (slotListeners (_onconnect h))
  /\ detachCallbacks (instance h) = List.length (slotListeners (_ondisconnect h)).
Proof.
  intros h.
  assert (Hinit : slotsHold newHandlers).
  { split; [reflexivity | split; [reflexivity | split; reflexivity]]. }
  destruct (runSlotCalls_slotsHold calls newHandlers Hinit) as (Hc & Hd & Ha & Hdt).
  fold h in Hc, Hd, Ha, Hdt.
  split; [exact Hc | split; [exact Hd | split; [apply runSlotCalls_last|]]].
  unfold listenerCount, listeners in Ha, Hdt. rewrite Hc in Ha. rewrite Hd in Hdt.
  split.
  - rewrite Ha. destruct (_onconnect h); reflexivity.
  - rewrite Hdt. destruct (_ondisconnect h); reflexivity.
Qed.

Lemma removeLast_count (l x : Listener) (ls ls' : list Listener) :
  removeLast l ls = Some ls' ->
  count_occ Nat.eq_dec ls x
  = (count_occ Nat.eq_dec ls' x + (if Nat.eqb l x then 1 else 0))%nat.
Proof.
  revert ls'. induction ls as [|y rest IH]; intros ls' H; cbn in H.
  - discriminate.
  - destruct (removeLast l rest) as [rest'|].
    + injection H as <-. cbn [count_occ].
      rewrite (IH rest' eq_refl). destruct (Nat.eq_dec y x); lia.
    + destruct (Nat.eqb y l) eqn:E; [|discriminate].
      injection H as <-. apply Nat.eqb_eq in E. subst y. cbn [count_occ].
      destruct (Nat.eq_dec l x) as [-> | Hne].
      * rewrite Nat.eqb_refl. lia.
      * apply Nat.eqb_neq in Hne. rewrite Hne. lia.
Qed.

Lemma existsb_eqb_removeLast (l : Listener) (ls : list Listener) :
  existsb (Nat.eqb l) ls = match removeLast l ls with Some _ => true | None => false end.
Proof.
  destruct (removeLast l ls) as [ls'|] eqn:Hrm.
  - apply existsb_exists.
    destruct (in_dec Nat.eq_dec l ls) as [Hin | Hnin].
    + exists l. split; [exact Hin | apply Nat.eqb_refl].
    + apply removeLast_None in Hnin. congruence.
  - apply removeLast_None in Hrm.
    destruct (existsb (Nat.eqb l) ls) eqn:Hex; [|reflexivity].
    apply existsb_exists in Hex. destruct Hex as [y [Hin Heq]].
    apply Nat.eqb_eq in Heq. subst y. contradiction.
Qed.

Lemma count_occ_snoc (ls : list Listener) (f x : Listener) :
  count_occ Nat.eq_dec (ls ++ [f]) x
  = (count_occ Nat.eq_dec ls x + (if Nat.eqb f x then 1 else 0))%nat.
Proof.
  rewrite count_occ_app. cbn [count_occ].
  destruct (Nat.eq_dec f x) as [-> | Hne].
  - rewrite Nat.eqb_refl. reflexivity.
  - apply Nat.eqb_neq in Hne. rewrite Hne. reflexivity.
Qed.

(** X24: assigning [onconnect] on any instance, with whatever listeners
    were added by [addEventListener], changes the connect listeners only by
    the slot's own handler: for every listener, its number of registrations
    goes down by one if it is the handler the slot held and that handler is
    still registered, and up by one if it is the handler assigned; the
    disconnect listeners are untouched. *)
Theorem setOnconnect_replaces_own_handler (fn : option Listener) (h : Handlers)
    (x : Listener) :
  (count_occ Nat.eq_dec (listeners (instance (setOnconnect fn h)) connect) x
   + slotRegistered (_onconnect h) (listeners (instance h) connect) x
   = count_occ Nat.eq_dec (listeners (instance h) connect) x + oneIf fn x)%nat
  /\ listeners (instance (setOnconnect fn h)) disconnect
     = listeners (instance h) disconnect.
Proof.
  unfold setOnconnect, slotRegistered, oneIf.
  destruct (_onconnect h) as [old|] eqn:Eslot.
  - assert (Hrm : (count_occ Nat.eq_dec
                     (listeners (removeEventListener connect old (instance h)) connect) x
                   + (if Nat.eqb old x && existsb (Nat.eqb old)
                                            (listeners (instance h) connect)
                      then 1 else 0)
                   = count_occ Nat.eq_dec (listeners (instance h) connect) x)%nat).
    { rewrite listeners_remove_same, existsb_eqb_removeLast.
      destruct (removeLast old (listeners (instance h) connect)) as [ls'|] eqn:Hrm.
      - rewrite (removeLast_count old x _ ls' Hrm).
        destruct (Nat.eqb old x); cbn; lia.
      - rewrite andb_false_r. lia. }
    assert (Hother : listeners (removeEventListener connect old (instance h)) disconnect
                     = listeners (instance h) disconnect)
      by (apply listeners_remove_other; discriminate).
    destruct fn as [f|]; cbn [instance].
    + rewrite !listeners_add, app_nil_r, count_occ_snoc. split; [lia | exact Hother].
    + split; [lia | exact Hother].
  - destruct fn as [f|]; cbn [instance].
    + rewrite !listeners_add, app_nil_r, count_occ_snoc. split; [lia | reflexivity].
    + split; [lia | reflexivity].
Qed.

(** ** More on the filters *)

(** X25: the pre-filter never discards a device the full filter would
    accept: if the adapted device reports the vendor and product
    identifiers of the raw device's descriptor and [filterDevice] accepts
    it for a filter list, then [quickFilter] with the same list keeps the
    raw device. *)
Theorem quickFilter_keeps_filterDevice_matches (raw : Device.t) (w : USBDevice.t)
    (devices : list Device.t) (filters : list USBDeviceFilter.t) :
  USBDevice.vendorId w = Device.idVendor raw ->
  USBDevice.productId w = Device.idProduct raw ->
  filterDevice w (Some filters) = true ->
  In raw devices ->
  In raw (quickFilter devices (Some filters)).
Proof.
  intros Hv Hp Hmatch Hin. destruct filters as [|f rest]; [exact Hin|].
  unfold quickFilter. apply filter_In. split; [exact Hin|].
  unfold filterDevice in Hmatch.
  apply existsb_exists in Hmatch. destruct Hmatch as [g [Hg Hok]].
  apply existsb_exists. exists g. split; [exact Hg|].
  unfold filterDeviceOne in Hok. unfold quickFilterOne. rewrite <- Hv, <- Hp.
  destruct (truthyNum (USBDeviceFilter.vendorId g)
            && negb (strictEqNum (USBDeviceFilter.vendorId g) (USBDevice.vendorId w)));
    [discriminate Hok|].
  destruct (truthyNum (USBDeviceFilter.productId g)
            && negb (strictEqNum (USBDeviceFilter.productId g) (USBDevice.productId w)));
    [discriminate Hok | reflexivity].
Qed.




(** X27: a filter list is a disjunction: for two non-empty filter lists,
    [filterDevice] accepts a device for their concatenation exactly when it
    accepts it for one of them.  (An empty list is no neutral element: it
    accepts every device.) *)
Theorem filterDevice_concatenation (device : USBDevice.t)
    (filters more : list USBDeviceFilter.t) :
  filters <> [] ->
  more <> [] ->
  filterDevice device (Some (filters ++ more))
  = filterDevice device (Some filters) || filterDevice device (Some more).
Proof.
  intros Hf Hm.
  assert (Hfm : filters ++ more <> []).
  { destruct filters; [congruence | discriminate]. }
  rewrite !filterDevice_nonempty by assumption.
  apply existsb_app.
Qed.

(** X28: the validation of a filter array accepts it exactly when no
    filter names a protocol code without a subclass code or a subclass code
    without a class code (truthy values); and when it rejects, the error is
    the one of the first offending filter. *)
Theorem checkFilters_accepts_iff (filters : list USBDeviceFilter.t) :
  (checkFilters filters = None
   <-> forallb (fun f => negb (breaksHierarchy f)) filters = true)
  /\ (forall good bad rest,
        filters = good ++ bad :: rest ->
        forallb (fun f => negb (breaksHierarchy f)) good = true ->
        breaksHierarchy bad = true ->
        checkFilters filters = checkFilter bad).
Proof.
  assert (Hone : forall f, checkFilter f = None <-> breaksHierarchy f = false).
  { intros f. unfold checkFilter, breaksHierarchy.
    destruct (truthyNum (USBDeviceFilter.protocolCode f)
              && negb (truthyNum (USBDeviceFilter.subclassCode f)));
      destruct (truthyNum (USBDeviceFilter.subclassCode f)
                && negb (truthyNum (USBDeviceFilter.classCode f)));
      cbn; split; congruence. }
  split.
  - induction filters as [|f rest IH]; cbn; [tauto|].
    destruct (checkFilter f) as [e|] eqn:Hf.
    + destruct (breaksHierarchy f) eqn:Hb.
      * cbn. split; discriminate.
      * apply Hone in Hb. congruence.
    + apply Hone in Hf. rewrite Hf. cbn. exact IH.
  - intros good bad rest -> Hgood Hbad.
    induction good as [|g good IH]; cbn.
    + destruct (checkFilter bad) as [e|] eqn:Hc; [reflexivity|].
      apply Hone in Hc. congruence.
    + cbn in Hgood. apply andb_true_iff in Hgood. destruct Hgood as [Hg Hrest].
      apply negb_true_iff in Hg. apply Hone in Hg. rewrite Hg. exact (IH Hrest).
Qed.

Lemma quickFilter_keeps_filterDevice_matches_witness :
  USBDevice.vendorId webA = Device.idVendor rawA
  /\ USBDevice.productId webA = Device.idProduct rawA
  /\ filterDevice webA (Some [vendorFilter 0x1111; vendorFilter 0x1234]) = true
  /\ In rawA [rawB; rawA]
  /\ In rawA (quickFilter [rawB; rawA] (Some [vendorFilter 0x1111; vendorFilter 0x1234])).
Proof.
  assert (Hin : In rawA [rawB; rawA]) by (right; left; reflexivity).
  split; [reflexivity | split; [reflexivity | split; [reflexivity | split; [exact Hin|]]]].
  exact (quickFilter_keeps_filterDevice_matches rawA webA [rawB; rawA]
           [vendorFilter 0x1111; vendorFilter 0x1234] eq_refl eq_refl eq_refl Hin).
Defined.

Lemma filterDevice_concatenation_witness :
  [vendorFilter 0x1111] <> []
  /\ [classFilter 3 None] <> []
  /\ filterDevice hidComposite (Some ([vendorFilter 0x1111] ++ [classFilter 3 None]))
     = filterDevice hidComposite (Some [vendorFilter 0x1111])
       || filterDevice hidComposite (Some [classFilter 3 None]).
Proof.
  assert (H1 : [vendorFilter 0x1111] <> []) by discriminate.
  assert (H2 : [classFilter 3 None] <> []) by discriminate.
  split; [exact H1 | split; [exact H2|]].
  exact (filterDevice_concatenation hidComposite [vendorFilter 0x1111]
           [classFilter 3 None] H1 H2).
Defined.

Lemma checkFilters_accepts_iff_witness :
  [vendorFilter 0x1234; codesFilter None (Some 1) None; codesFilter None None (Some 1)]
  = [vendorFilter 0x1234] ++ codesFilter None (Some 1) None
                             :: [codesFilter None None (Some 1)]
  /\ forallb (fun f => negb (breaksHierarchy f)) [vendorFilter 0x1234] = true
  /\ breaksHierarchy (codesFilter None (Some 1) None) = true
  /\ checkFilters
       [vendorFilter 0x1234; codesFilter None (Some 1) None; codesFilter None None (Some 1)]
     = checkFilter (codesFilter None (Some 1) None).
Proof.
  split; [reflexivity | split; [reflexivity | split; [reflexivity|]]].
  exact (proj2 (checkFilters_accepts_iff
                  [vendorFilter 0x1234; codesFilter None (Some 1) None;
                   codesFilter None None (Some 1)])
           [vendorFilter 0x1234] (codesFilter None (Some 1) None)
           [codesFilter None None (Some 1)] eq_refl eq_refl eq_refl).
Defined.
